(** * Relations API of the game server (Relations.cpp)

    A shallow embedding of the relation-resolution functions of
    [src/game/Entities/Relations.cpp]: faction-template reactions,
    unit-to-unit reactions, the attack / assist predicates, the proxy
    objects that delegate to an owner, and the fog-of-war gates.

    All functions of the file are read-only queries.  Pointers to game
    entities become records, a null pointer becomes [None], object identity
    ([this == unit]) is identity of object guids, and the global stores
    ([sFactionStore], [sFactionTemplateStore], [ObjectAccessor]) are finite
    maps carried by a [World]. *)

From Stdlib Require Import ZArith List Bool Lia.
From stdpp Require Import base option gmap.

Local Open Scope Z_scope.

(* ===================================================================== *)
(** ** Reputation ranks                                                  *)
(* ===================================================================== *)

(** Modelled from the spec: [enum ReputationRank] is declared in a header
    that is not part of Relations.cpp.  The ranks ascend from most hostile
    to most friendly; Relations.cpp itself names REP_HOSTILE,
    REP_UNFRIENDLY, REP_NEUTRAL, REP_FRIENDLY and REP_HONORED and orders
    them with [<] and [>] on the underlying integer. *)
Inductive ReputationRank : Set :=
  | REP_HATED
  | REP_HOSTILE
  | REP_UNFRIENDLY
  | REP_NEUTRAL
  | REP_FRIENDLY
  | REP_HONORED
  | REP_REVERED
  | REP_EXALTED.

(** [int32(reaction)] *)
Definition rank_to_Z (r : ReputationRank) : Z :=
  match r with
  | REP_HATED => 0
  | REP_HOSTILE => 1
  | REP_UNFRIENDLY => 2
  | REP_NEUTRAL => 3
  | REP_FRIENDLY => 4
  | REP_HONORED => 5
  | REP_REVERED => 6
  | REP_EXALTED => 7
  end.

(** [ReputationRank(n)]; the cast is only ever applied to the successor of
    a rank below REP_HONORED, the other values are clamped. *)
Definition rank_of_Z (n : Z) : ReputationRank :=
  if n <=? 0 then REP_HATED
  else if n =? 1 then REP_HOSTILE
  else if n =? 2 then REP_UNFRIENDLY
  else if n =? 3 then REP_NEUTRAL
  else if n =? 4 then REP_FRIENDLY
  else if n =? 5 then REP_HONORED
  else if n =? 6 then REP_REVERED
  else REP_EXALTED.

Definition rank_ltb (a b : ReputationRank) : bool := rank_to_Z a <? rank_to_Z b.
Definition rank_gtb (a b : ReputationRank) : bool := rank_to_Z b <? rank_to_Z a.

Definition rank_lt (a b : ReputationRank) : Prop := rank_to_Z a < rank_to_Z b.
Definition rank_le (a b : ReputationRank) : Prop := rank_to_Z a <= rank_to_Z b.

(** The top of the ordering: every rank is at most [r]. *)
Definition most_friendly_rank (r : ReputationRank) : Prop :=
  forall r' : ReputationRank, rank_le r' r.

(* ===================================================================== *)
(** ** Faction data                                                      *)
(* ===================================================================== *)

(** [struct FactionTemplateEntry]: the fields Relations.cpp reads.  The two
    id arrays have a fixed size in the DBC structure; all four slots are
    scanned by the range-for loops, so they are kept as lists.
    [IsContestedGuardFaction] is the predicate of the same name. *)
Record FactionTemplateEntry : Type := {
  faction : Z;
  factionGroupMask : Z;
  friendGroupMask : Z;
  enemyGroupMask : Z;
  enemyFaction : list Z;
  friendFaction : list Z;
  IsContestedGuardFaction : bool
}.

(** [struct FactionEntry]: the faction id and [HasReputation()]. *)
Record FactionEntry : Type := {
  ID : Z;
  HasReputation : bool
}.

(** A C++ integer used as a condition. *)
Definition nonzero (x : Z) : bool := negb (x =? 0).

(** [arr[0]] *)
Definition slot0 (arr : list Z) : Z := nth 0 arr 0.

(** [for (unsigned int i : arr) if (i == id) return ...;] *)
Definition scan (arr : list Z) (id : Z) : bool := existsb (fun i => i =? id) arr.

(** [static inline ReputationRank GetFactionReaction(FactionTemplateEntry
    const* thisTemplate, FactionTemplateEntry const* otherTemplate)] *)
Definition GetFactionReaction_templates
    (thisTemplate otherTemplate : FactionTemplateEntry) : ReputationRank :=
  if nonzero (Z.land (factionGroupMask otherTemplate) (enemyGroupMask thisTemplate))
  then REP_HOSTILE
  else if nonzero (slot0 (enemyFaction thisTemplate)) && nonzero (faction otherTemplate)
          && scan (enemyFaction thisTemplate) (faction otherTemplate)
  then REP_HOSTILE
  else if nonzero (Z.land (factionGroupMask otherTemplate) (friendGroupMask thisTemplate))
  then REP_FRIENDLY
  else if nonzero (slot0 (friendFaction thisTemplate)) && nonzero (faction otherTemplate)
          && scan (friendFaction thisTemplate) (faction otherTemplate)
  then REP_FRIENDLY
  else if nonzero (Z.land (factionGroupMask thisTemplate) (friendGroupMask otherTemplate))
  then REP_FRIENDLY
  else if nonzero (slot0 (friendFaction otherTemplate)) && nonzero (faction thisTemplate)
          && scan (friendFaction otherTemplate) (faction thisTemplate)
  then REP_FRIENDLY
  else REP_NEUTRAL.

(* ===================================================================== *)
(** ** Entities                                                          *)
(* ===================================================================== *)

(** [Object::HasFlag(index, flag)]: some bit of [flag] is set in the field. *)
Definition HasFlag (field flag : Z) : bool := nonzero (Z.land field flag).

(** Modelled from the spec: the flag constants are declared in headers that
    are not part of Relations.cpp.  The spec lists them as independent
    capability flags of an entity, so each one is a bit of its own in the
    32-bit field that holds it. *)
Definition UNIT_FLAG_SPAWNING : Z := 0x00000002.
Definition UNIT_FLAG_PLAYER_CONTROLLED : Z := 0x00000008.
Definition UNIT_FLAG_NOT_ATTACKABLE_1 : Z := 0x00000080.
Definition UNIT_FLAG_IMMUNE_TO_PLAYER : Z := 0x00000100.
Definition UNIT_FLAG_IMMUNE_TO_NPC : Z := 0x00000200.
Definition UNIT_FLAG_PERSUADED : Z := 0x00004000.
Definition UNIT_FLAG_UNTARGETABLE : Z := 0x00010000.
Definition UNIT_FLAG_TAXI_FLIGHT : Z := 0x00100000.
Definition UNIT_FLAG_UNINTERACTIBLE : Z := 0x02000000.

Definition PLAYER_FLAGS_GHOST : Z := 0x00000010.
Definition PLAYER_FLAGS_CONTESTED_PVP : Z := 0x00000100.

(** The reputation manager of a player, an external collaborator: only its
    three queries are used. *)
Record ReputationMgr : Type := {
  GetForcedRankIfAny : FactionTemplateEntry -> option ReputationRank;
  GetRank : FactionEntry -> ReputationRank;
  IsAtWar : FactionEntry -> bool
}.

(** The part of [class Player] that Relations.cpp reads.  [GetGroup] is the
    group pointer (compared by identity), [SubGroup] the sub-group that
    [Group::SameSubGroup] compares, [IsInDuelWith] is keyed by the guid of
    the other player. *)
Record Player : Type := {
  PLAYER_FLAGS : Z;
  PLAYER_DUEL_TEAM : Z;
  PLAYER_DUEL_ARBITER : Z;
  GetReputationMgr : ReputationMgr;
  GetGroup : option Z;
  SubGroup : Z;
  GetGuildId : Z;
  GetTeam : Z;
  IsGameMaster : bool;
  IsInDuelWith : Z -> bool
}.

(** The part of [class Creature] that Relations.cpp reads:
    [GetCreatureInfo()->HasFlag(CreatureTypeFlags::VISIBLE_TO_GHOSTS)]. *)
Record Creature : Type := {
  VISIBLE_TO_GHOSTS : bool
}.

(** The dynamic type of a unit; [static_cast]s of the source are guarded by
    [GetTypeId()] and become a match on this. *)
Inductive UnitClass : Type :=
  | AsCreature (c : Creature)
  | AsPlayer (p : Player).

Inductive TypeID : Set := TYPEID_UNIT | TYPEID_PLAYER.

(** The state of a [Unit] that the relation queries read.  Fields named
    after a getter hold what that getter returns; a guid of 0 is the empty
    guid. *)
Record Unit : Type := {
  GetObjectGuid : Z;
  class : UnitClass;
  UNIT_FIELD_FLAGS : Z;
  GetFaction : Z;
  GetMasterGuid : Z;
  GetOwnerGuid : Z;
  GetCharmerGuid : Z;
  GetSummonerGuid : Z;
  GetPersuadedGuid : Z;
  IsAlive : bool;
  IsPvP : bool;
  IsPvPFreeForAll : bool
}.

Definition GetTypeId (u : Unit) : TypeID :=
  match class u with
  | AsCreature _ => TYPEID_UNIT
  | AsPlayer _ => TYPEID_PLAYER
  end.

(** A [Player const*]: the unit together with its player part. *)
Definition PlayerPtr : Type := (Unit * Player)%type.

(** [static_cast<Player const*>(u)] after a type check. *)
Definition toPlayer (u : Unit) : option PlayerPtr :=
  match class u with
  | AsPlayer p => Some (u, p)
  | AsCreature _ => None
  end.

(** The global stores and the configuration. *)
Record World : Type := {
  sFactionStore : gmap Z FactionEntry;
  sFactionTemplateStore : gmap Z FactionTemplateEntry;
  units : gmap Z Unit;
  CONFIG_UINT32_FOGOFWAR_STEALTH : Z;
  CONFIG_UINT32_FOGOFWAR_HEALTH : Z;
  CONFIG_UINT32_FOGOFWAR_STATS : Z
}.

(** [ObjectAccessor::GetUnit], the lookup of a unit by guid *)
Definition GetUnit (w : World) (guid : Z) : option Unit := units w !! guid.

(** Modelled from the spec: [Unit::GetFactionTemplateEntry] is defined
    outside Relations.cpp; a template is looked up by id in the read-only
    table and absence is a valid outcome. *)
Definition GetFactionTemplateEntry (w : World) (u : Unit) : option FactionTemplateEntry :=
  sFactionTemplateStore w !! GetFaction u.

(** [this == unit] on entities *)
Definition same_unit (a b : Unit) : bool := GetObjectGuid a =? GetObjectGuid b.

(** [Player const* Unit::GetControllingPlayer(bool ignoreCharms) const] *)
Definition GetControllingPlayer (w : World) (this : Unit) (ignoreCharms : bool)
  : option PlayerPtr :=
  let masterGuid := if ignoreCharms then GetOwnerGuid this else GetMasterGuid this in
  if nonzero masterGuid then
    match GetUnit w masterGuid with
    | Some master => toPlayer master
    | None => None
    end
  else toPlayer this.

(** [static ReputationRank GetFactionReaction(FactionTemplateEntry const*
    thisTemplate, Unit const* unit)] *)
Definition GetFactionReaction_unit (w : World)
    (thisTemplate : option FactionTemplateEntry) (unit : Unit) : ReputationRank :=
  match thisTemplate with
  | Some thisT =>
    match GetFactionTemplateEntry w unit with
    | Some unitFactionTemplate =>
      let fallback := GetFactionReaction_templates thisT unitFactionTemplate in
      if HasFlag (UNIT_FIELD_FLAGS unit) UNIT_FLAG_PLAYER_CONTROLLED then
        match GetControllingPlayer w unit false with
        | Some (_, unitPlayer) =>
          if HasFlag (PLAYER_FLAGS unitPlayer) PLAYER_FLAGS_CONTESTED_PVP
             && IsContestedGuardFaction thisT
          then REP_HOSTILE
          else
            match GetForcedRankIfAny (GetReputationMgr unitPlayer) thisT with
            | Some rank => rank
            | None =>
              match sFactionStore w !! faction thisT with
              | Some thisFactionEntry =>
                if HasReputation thisFactionEntry
                then GetRank (GetReputationMgr unitPlayer) thisFactionEntry
                else fallback
              | None => fallback
              end
            end
        | None => fallback
        end
      else fallback
    | None => REP_NEUTRAL
    end
  | None => REP_NEUTRAL
  end.

(** The duel test that GetReactionTo, CanAttack and CanAttackServerside
    share: both duel teams set and the same arbiter. *)
Definition sameDuel (thisPlayer unitPlayer : Player) : bool :=
  nonzero (PLAYER_DUEL_TEAM thisPlayer) && nonzero (PLAYER_DUEL_TEAM unitPlayer)
  && (PLAYER_DUEL_ARBITER thisPlayer =? PLAYER_DUEL_ARBITER unitPlayer).

(** [group && group == otherPlayer->GetGroup() &&
     (!party || group->SameSubGroup(thisPlayer, otherPlayer))] *)
Definition sameGroup (thisPlayer otherPlayer : Player) (party : bool) : bool :=
  match GetGroup thisPlayer with
  | Some group =>
    match GetGroup otherPlayer with
    | Some group' =>
      (group =? group') && (negb party || (SubGroup thisPlayer =? SubGroup otherPlayer))
    | None => false
    end
  | None => false
  end.

(** [bool Unit::IsInGroup(Unit const* other, bool party, bool ignoreCharms) const] *)
Definition Unit_IsInGroup (w : World) (this other : Unit) (party ignoreCharms : bool) : bool :=
  if same_unit this other then true
  else if HasFlag (UNIT_FIELD_FLAGS this) UNIT_FLAG_PLAYER_CONTROLLED
          && HasFlag (UNIT_FIELD_FLAGS other) UNIT_FLAG_PLAYER_CONTROLLED
  then
    match GetControllingPlayer w this ignoreCharms with
    | Some (thisU, thisPlayer) =>
      match GetControllingPlayer w other ignoreCharms with
      | Some (otherU, otherPlayer) =>
        same_unit thisU otherU || sameGroup thisPlayer otherPlayer party
      | None => false
      end
    | None => false
    end
  else false.

(** [bool Player::IsInGroup(Unit const* other, bool party, bool ignoreCharms) const] *)
Definition Player_IsInGroup (w : World) (this : PlayerPtr) (other : Unit)
    (party ignoreCharms : bool) : bool :=
  let '(thisU, thisPlayer) := this in
  if negb (same_unit thisU other) && ignoreCharms then
    match toPlayer other with
    | Some (_, otherPlayer) => sameGroup thisPlayer otherPlayer party
    | None => Unit_IsInGroup w thisU other party ignoreCharms
    end
  else Unit_IsInGroup w thisU other party ignoreCharms.

(* ===================================================================== *)
(** ** Tier 1: unit to unit reaction                                     *)
(* ===================================================================== *)

(** The block of [Unit::GetReactionTo] entered when both sides carry the
    player-controlled flag.  [Some r] is [return r]; [None] means that the
    block was left without returning. *)
Definition GetReactionTo_bothControlled (w : World)
    (thisPlayer unitPlayer : option PlayerPtr) : option ReputationRank :=
  match thisPlayer, unitPlayer with
  | Some (thisU, thisP), Some (unitU, unitP) =>
    if same_unit thisU unitU then Some REP_FRIENDLY
    else if sameDuel thisP unitP
    then Some (if negb (PLAYER_DUEL_TEAM thisP =? PLAYER_DUEL_TEAM unitP)
               then REP_HOSTILE else REP_FRIENDLY)
    else if Player_IsInGroup w (thisU, thisP) unitU false false then Some REP_FRIENDLY
    else if IsPvPFreeForAll thisU && IsPvPFreeForAll unitU then Some REP_HOSTILE
    else None
  | _, _ => Some REP_NEUTRAL
  end.

(** The block [if (thisPlayer) { ... }] of [Unit::GetReactionTo]. *)
Definition GetReactionTo_thisPlayer (w : World)
    (thisPlayer : option PlayerPtr) (unit : Unit) : option ReputationRank :=
  match thisPlayer with
  | Some (_, thisP) =>
    match GetFactionTemplateEntry w unit with
    | Some unitFactionTemplate =>
      match GetForcedRankIfAny (GetReputationMgr thisP) unitFactionTemplate with
      | Some rank => Some rank
      | None =>
        match sFactionStore w !! faction unitFactionTemplate with
        | Some unitFactionEntry =>
          if HasReputation unitFactionEntry then
            if HasFlag (PLAYER_FLAGS thisP) PLAYER_FLAGS_CONTESTED_PVP
               && IsContestedGuardFaction unitFactionTemplate
            then Some REP_HOSTILE
            else Some (if IsAtWar (GetReputationMgr thisP) unitFactionEntry
                       then REP_HOSTILE else REP_FRIENDLY)
          else None
        | None => None
        end
      end
    | None => None
    end
  | None => None
  end.

(** The player-specific part of [Unit::GetReactionTo], everything between
    the self test and the default fallback. *)
Definition GetReactionTo_playerSpecific (w : World) (this unit : Unit)
  : option ReputationRank :=
  if HasFlag (UNIT_FIELD_FLAGS this) UNIT_FLAG_PLAYER_CONTROLLED then
    let thisPlayer := GetControllingPlayer w this false in
    match
      (if HasFlag (UNIT_FIELD_FLAGS unit) UNIT_FLAG_PLAYER_CONTROLLED
       then GetReactionTo_bothControlled w thisPlayer (GetControllingPlayer w unit false)
       else None)
    with
    | Some r => Some r
    | None => GetReactionTo_thisPlayer w thisPlayer unit
    end
  else None.

(** [unitFactionEntry && unitFactionEntry->HasReputation()] for the faction
    of the unit's template. *)
Definition factionTracksReputation (w : World) (unit : Unit) : bool :=
  match GetFactionTemplateEntry w unit with
  | Some unitFactionTemplate =>
    match sFactionStore w !! faction unitFactionTemplate with
    | Some unitFactionEntry => HasReputation unitFactionEntry
    | None => false
    end
  | None => false
  end.

(** [unit->HasFlag(UNIT_FIELD_FLAGS, UNIT_FLAG_PERSUADED) ||
     GetPersuadedGuid() == unit->GetObjectGuid()] *)
Definition isPersuaded (this unit : Unit) : bool :=
  HasFlag (UNIT_FIELD_FLAGS unit) UNIT_FLAG_PERSUADED
  || (GetPersuadedGuid this =? GetObjectGuid unit).

(** The default fallback of [Unit::GetReactionTo] before the persuasion
    support: faction to unit. *)
Definition rawReaction (w : World) (this unit : Unit) : ReputationRank :=
  GetFactionReaction_unit w (GetFactionTemplateEntry w this) unit.

(** Every return of [Unit::GetReactionTo] that comes before the default
    fallback: the self test and the player-specific part. *)
Definition GetReactionTo_earlyReturn (w : World) (this unit : Unit)
  : option ReputationRank :=
  if same_unit this unit then Some REP_FRIENDLY
  else GetReactionTo_playerSpecific w this unit.

(** The end of [Unit::GetReactionTo]: the default fallback with the
    persuasion support. *)
Definition GetReactionTo_fallback (w : World) (this unit : Unit) : ReputationRank :=
  let reaction := rawReaction w this unit in
  if rank_gtb reaction REP_HOSTILE && rank_ltb reaction REP_HONORED
     && isPersuaded this unit
  then
    if factionTracksReputation w unit
    then rank_of_Z (rank_to_Z reaction + 1)
    else reaction
  else reaction.

(** [ReputationRank Unit::GetReactionTo(Unit const* unit) const] *)
Definition Unit_GetReactionTo (w : World) (this unit : Unit) : ReputationRank :=
  match GetReactionTo_earlyReturn w this unit with
  | Some r => r
  | None => GetReactionTo_fallback w this unit
  end.

(** [bool Unit::IsEnemy(Unit const* unit) const] *)
Definition Unit_IsEnemy (w : World) (this unit : Unit) : bool :=
  rank_ltb (Unit_GetReactionTo w this unit) REP_UNFRIENDLY.

(** [bool Unit::IsFriend(Unit const* unit) const] *)
Definition Unit_IsFriend (w : World) (this unit : Unit) : bool :=
  rank_gtb (Unit_GetReactionTo w this unit) REP_NEUTRAL.

(* ===================================================================== *)
(** ** Tier 1: attack, assist, cooperate                                 *)
(* ===================================================================== *)

(** Creatures cannot attack player ghosts, unless specially flagged. *)
Definition ghostBlocked (this unit : Unit) : bool :=
  match class this, class unit with
  | AsCreature c, AsPlayer p =>
    HasFlag (PLAYER_FLAGS p) PLAYER_FLAGS_GHOST && negb (VISIBLE_TO_GHOSTS c)
  | _, _ => false
  end.

(** [mask] of [Unit::CanAttack] and [Unit::CanAttackServerside] *)
Definition attackMask : Z :=
  Z.lor UNIT_FLAG_SPAWNING
    (Z.lor UNIT_FLAG_NOT_ATTACKABLE_1
       (Z.lor UNIT_FLAG_UNTARGETABLE
          (Z.lor UNIT_FLAG_TAXI_FLIGHT UNIT_FLAG_UNINTERACTIBLE))).

(** The immunity test of one side against the other:
    [if (aPlayerControlled) { if (b has IMMUNE_TO_PLAYER) return false; }
     else if (b has IMMUNE_TO_NPC) return false;] *)
Definition immuneBlocked (aPlayerControlled : bool) (b : Unit) : bool :=
  if aPlayerControlled
  then HasFlag (UNIT_FIELD_FLAGS b) UNIT_FLAG_IMMUNE_TO_PLAYER
  else HasFlag (UNIT_FIELD_FLAGS b) UNIT_FLAG_IMMUNE_TO_NPC.

(** The tail of [Unit::CanAttack] (shared verbatim with
    [Unit::CanAttackServerside]) from
    [if (thisPlayerControlled || unitPlayerControlled)] on. *)
Definition attackByRelation (w : World) (this unit : Unit)
    (thisPlayerControlled unitPlayerControlled : bool) : bool :=
  if thisPlayerControlled || unitPlayerControlled then
    if thisPlayerControlled && unitPlayerControlled then
      if Unit_IsFriend w this unit then false
      else
        match GetControllingPlayer w this false with
        | None => true
        | Some (thisU, thisP) =>
          match GetControllingPlayer w unit false with
          | None => true
          | Some (unitU, unitP) =>
            if sameDuel thisP unitP then true
            else if IsPvP unitU then true
            else if IsPvPFreeForAll thisU && IsPvPFreeForAll unitU then true
            else false
          end
        end
    else negb (Unit_IsFriend w this unit)
  else Unit_IsEnemy w this unit || Unit_IsEnemy w unit this.

(** [bool Unit::CanAttack(const Unit* unit) const] *)
Definition Unit_CanAttack (w : World) (this unit : Unit) : bool :=
  if ghostBlocked this unit then false
  else if HasFlag (UNIT_FIELD_FLAGS unit) attackMask then false
  else
    let thisPlayerControlled := HasFlag (UNIT_FIELD_FLAGS this) UNIT_FLAG_PLAYER_CONTROLLED in
    if immuneBlocked thisPlayerControlled unit then false
    else
      let unitPlayerControlled := HasFlag (UNIT_FIELD_FLAGS unit) UNIT_FLAG_PLAYER_CONTROLLED in
      if immuneBlocked unitPlayerControlled this then false
      else attackByRelation w this unit thisPlayerControlled unitPlayerControlled.

(** Modelled from the spec: [Unit::GetMaster] is defined outside
    Relations.cpp; it resolves the master guid to the unit, if any. *)
Definition GetMaster (w : World) (u : Unit) : option Unit :=
  if nonzero (GetMasterGuid u) then GetUnit w (GetMasterGuid u) else None.

(** The lambda [isPvPUI] of [Unit::CanAssist] *)
Definition isPvPUI (w : World) (self : Unit) : bool :=
  match GetMaster w self with
  | Some master =>
    if HasFlag (UNIT_FIELD_FLAGS self) UNIT_FLAG_IMMUNE_TO_PLAYER then false
    else IsPvP master
  | None => IsPvP self
  end.

(** [bool Unit::CanAssist(const Unit* unit, bool ignoreFlags) const] *)
Definition Unit_CanAssist (w : World) (this unit : Unit) : bool :=
  if HasFlag (UNIT_FIELD_FLAGS unit) UNIT_FLAG_UNINTERACTIBLE then false
  else if rank_ltb (Unit_GetReactionTo w this unit) REP_FRIENDLY then false
  else if HasFlag (UNIT_FIELD_FLAGS unit) UNIT_FLAG_PLAYER_CONTROLLED then
    match GetControllingPlayer w this false, GetControllingPlayer w unit false with
    | Some (thisU, thisP), Some (unitU, unitP) =>
      if negb (PLAYER_DUEL_ARBITER thisP =? PLAYER_DUEL_ARBITER unitP)
         || negb (PLAYER_DUEL_TEAM thisP =? PLAYER_DUEL_TEAM unitP)
      then false
      else if IsPvPFreeForAll unitU && negb (IsPvPFreeForAll thisU) then false
      else true
    | _, _ => true
    end
  else if negb (HasFlag (UNIT_FIELD_FLAGS this) UNIT_FLAG_PLAYER_CONTROLLED) then true
  else if isPvPUI w unit then true
  else false.

(** [bool Unit::CanCooperate(const Unit* unit) const] *)
Definition Unit_CanCooperate (w : World) (this unit : Unit) : bool :=
  if same_unit this unit then false
  else if nonzero (GetCharmerGuid this) || nonzero (GetCharmerGuid unit) then false
  else
    match GetFactionTemplateEntry w this, GetFactionTemplateEntry w unit with
    | Some thisFactionTemplate, Some unitFactionTemplate =>
      if factionGroupMask thisFactionTemplate =? factionGroupMask unitFactionTemplate
      then negb (Unit_CanAttack w this unit)
      else false
    | _, _ => false
    end.

(* ===================================================================== *)
(** ** Tier 2: group extensions                                          *)
(* ===================================================================== *)

(** [bool Creature::IsInGroup(Unit const* other, bool party, bool ignoreCharms) const] *)
Definition Creature_IsInGroup (w : World) (this other : Unit)
    (party ignoreCharms : bool) : bool :=
  if HasFlag (UNIT_FIELD_FLAGS this) UNIT_FLAG_PLAYER_CONTROLLED
     || HasFlag (UNIT_FIELD_FLAGS other) UNIT_FLAG_PLAYER_CONTROLLED
  then Unit_IsInGroup w this other party ignoreCharms
  else Unit_IsFriend w this other.

(** The virtual call [IsInGroup(other, party, ignoreCharms)] on a unit:
    players and creatures override [Unit::IsInGroup]. *)
Definition IsInGroup (w : World) (this other : Unit) (party ignoreCharms : bool) : bool :=
  match class this with
  | AsPlayer p => Player_IsInGroup w (this, p) other party ignoreCharms
  | AsCreature _ => Creature_IsInGroup w this other party ignoreCharms
  end.

(* ===================================================================== *)
(** ** Tier 3: spells, proxies, fog of war                               *)
(* ===================================================================== *)

(** The two attributes of a [SpellEntry] that [Unit::CanAttackSpell] tests. *)
Record SpellEntry : Type := {
  SPELL_ATTR_EX2_ALLOW_DEAD_TARGET : bool;
  SPELL_ATTR_EX3_IGNORE_CASTER_AND_TARGET_RESTRICTIONS : bool
}.

(** [bool Unit::CanAttackServerside(Unit const* unit, bool ignoreFlagsSource,
    bool ignoreFlagsTarget) const] *)
Definition Unit_CanAttackServerside (w : World) (this unit : Unit)
    (ignoreFlagsSource ignoreFlagsTarget : bool) : bool :=
  if ghostBlocked this unit then false
  else if HasFlag (UNIT_FIELD_FLAGS unit) attackMask then false
  else
    let thisPlayerControlled := HasFlag (UNIT_FIELD_FLAGS this) UNIT_FLAG_PLAYER_CONTROLLED in
    let unitPlayerControlled := HasFlag (UNIT_FIELD_FLAGS unit) UNIT_FLAG_PLAYER_CONTROLLED in
    if negb ignoreFlagsTarget && immuneBlocked thisPlayerControlled unit then false
    else if negb ignoreFlagsSource && immuneBlocked unitPlayerControlled this then false
    else attackByRelation w this unit thisPlayerControlled unitPlayerControlled.

(** [thisFactionEntry && thisFactionEntry->HasReputation() &&
     unitPlayer->GetReputationMgr().IsAtWar(thisFactionEntry)], with
    [None] when the caller has no faction template or no tracked faction. *)
Definition atWarWithFactionOf (w : World) (this : Unit) (unitPlayer : Player)
  : option bool :=
  match GetFactionTemplateEntry w this with
  | Some thisFactionTemplate =>
    match sFactionStore w !! faction thisFactionTemplate with
    | Some thisFactionEntry =>
      if HasReputation thisFactionEntry
      then Some (IsAtWar (GetReputationMgr unitPlayer) thisFactionEntry)
      else None
    | None => None
    end
  | None => None
  end.

(** [bool Unit::CanAttackInCombat(Unit const* target, bool ignoreFlagsSource,
    bool ignoreFlagsTarget) const].  [target->IsPlayerControlled()] is the
    test of UNIT_FLAG_PLAYER_CONTROLLED. *)
Definition Unit_CanAttackInCombat (w : World) (this target : Unit)
    (ignoreFlagsSource ignoreFlagsTarget : bool) : bool :=
  if negb (Unit_CanAttackServerside w this target ignoreFlagsSource ignoreFlagsTarget) then
    if HasFlag (UNIT_FIELD_FLAGS target) UNIT_FLAG_PLAYER_CONTROLLED then
      if Unit_IsFriend w this target then
        match GetControllingPlayer w target false with
        | Some (_, unitPlayer) =>
          match atWarWithFactionOf w this unitPlayer with
          | Some true => true
          | _ => false
          end
        | None => false
        end
      else false
    else false
  else true.

(** [bool Unit::CanAttackSpell(Unit const* target, SpellEntry const*
    spellInfo, bool isAOE) const] *)
Definition Unit_CanAttackSpell (w : World) (this target : Unit)
    (spellInfo : option SpellEntry) (isAOE : bool) : bool :=
  let deadBlocked :=
    match spellInfo with
    | Some s => negb (IsAlive target) && negb (SPELL_ATTR_EX2_ALLOW_DEAD_TARGET s)
    | None => false
    end in
  let ignoreFlagsSource :=
    match spellInfo with
    | Some s => SPELL_ATTR_EX3_IGNORE_CASTER_AND_TARGET_RESTRICTIONS s
    | None => false
    end in
  let ignoreFlagsTarget :=
    match spellInfo with
    | Some s => SPELL_ATTR_EX3_IGNORE_CASTER_AND_TARGET_RESTRICTIONS s
    | None => false
    end in
  if deadBlocked then false
  else if Unit_CanAttackInCombat w this target ignoreFlagsSource ignoreFlagsTarget then
    if HasFlag (UNIT_FIELD_FLAGS target) UNIT_FLAG_PLAYER_CONTROLLED then
      if HasFlag (UNIT_FIELD_FLAGS this) UNIT_FLAG_PLAYER_CONTROLLED then
        if isAOE then
          match GetControllingPlayer w this false, GetControllingPlayer w target false with
          | Some (thisU, thisP), Some (unitU, unitP) =>
            if negb (IsInDuelWith thisP (GetObjectGuid unitU))
               && negb (Bool.eqb (IsPvP thisU) (IsPvP unitU))
            then IsPvPFreeForAll thisU && IsPvPFreeForAll unitU
            else true
          | _, _ => true
          end
        else true
      else
        if negb (Unit_IsEnemy w this target) then
          match GetControllingPlayer w target false with
          | Some (_, unitPlayer) =>
            match atWarWithFactionOf w this unitPlayer with
            | Some atWar => atWar
            | None => true
            end
          | None => true
          end
        else true
    else true
  else false.

(** [bool Unit::CanAssistSpell(Unit const* target, SpellEntry const*
    spellInfo) const] *)
Definition Unit_CanAssistSpell (w : World) (this target : Unit)
    (spellInfo : option SpellEntry) : bool :=
  Unit_CanAssist w this target.

(** A [GameObject]: the guid of its owner and its own faction template id. *)
Record GameObject : Type := {
  GO_OwnerGuid : Z;
  GAMEOBJECT_FACTION : Z
}.

(** A [DynamicObject]: the guid of the unit that cast it. *)
Record DynamicObject : Type := {
  DO_CasterGuid : Z
}.

(** Modelled from the spec: [GameObject::GetOwner] and
    [DynamicObject::GetCaster] are defined outside Relations.cpp; each is an
    optional back-reference to the owning combatant, looked up by guid. *)
Definition GetOwner (w : World) (go : GameObject) : option Unit :=
  GetUnit w (GO_OwnerGuid go).

Definition GetCaster (w : World) (d : DynamicObject) : option Unit :=
  GetUnit w (DO_CasterGuid d).

(** The faction fallback of an ownerless game object:
    [if (faction = GetUInt32Value(GAMEOBJECT_FACTION))
       if (factionTemplate = sFactionTemplateStore.LookupEntry(faction)) ...] *)
Definition GO_factionTemplate (w : World) (go : GameObject) : option FactionTemplateEntry :=
  if nonzero (GAMEOBJECT_FACTION go)
  then sFactionTemplateStore w !! GAMEOBJECT_FACTION go
  else None.

(** [ReputationRank GameObject::GetReactionTo(Unit const* unit) const] *)
Definition GameObject_GetReactionTo (w : World) (this : GameObject) (unit : Unit)
  : ReputationRank :=
  match GetOwner w this with
  | Some owner => Unit_GetReactionTo w owner unit
  | None =>
    match GO_factionTemplate w this with
    | Some factionTemplate => GetFactionReaction_unit w (Some factionTemplate) unit
    | None => REP_NEUTRAL
    end
  end.

(** [bool GameObject::IsEnemy(Unit const* unit) const] *)
Definition GameObject_IsEnemy (w : World) (this : GameObject) (unit : Unit) : bool :=
  match GetOwner w this with
  | Some owner => Unit_IsEnemy w owner unit
  | None =>
    match GO_factionTemplate w this with
    | Some factionTemplate =>
      rank_ltb (GetFactionReaction_unit w (Some factionTemplate) unit) REP_UNFRIENDLY
    | None => false
    end
  end.

(** [bool GameObject::IsFriend(Unit const* unit) const] *)
Definition GameObject_IsFriend (w : World) (this : GameObject) (unit : Unit) : bool :=
  match GetOwner w this with
  | Some owner => Unit_IsFriend w owner unit
  | None =>
    match GO_factionTemplate w this with
    | Some factionTemplate =>
      rank_gtb (GetFactionReaction_unit w (Some factionTemplate) unit) REP_NEUTRAL
    | None => false
    end
  end.

(** [bool GameObject::CanAttackSpell(Unit const* target, SpellEntry const*
    spellInfo, bool isAOE) const] *)
Definition GameObject_CanAttackSpell (w : World) (this : GameObject) (target : Unit)
    (spellInfo : option SpellEntry) (isAOE : bool) : bool :=
  match GetOwner w this with
  | Some owner => Unit_CanAttackSpell w owner target spellInfo isAOE
  | None =>
    if HasFlag (UNIT_FIELD_FLAGS target) UNIT_FLAG_PLAYER_CONTROLLED
    then negb (GameObject_IsFriend w this target)
    else GameObject_IsEnemy w this target
  end.

(** [bool GameObject::CanAssistSpell(Unit const* target, SpellEntry const*
    spellInfo) const] *)
Definition GameObject_CanAssistSpell (w : World) (this : GameObject) (target : Unit)
    (spellInfo : option SpellEntry) : bool :=
  match GetOwner w this with
  | Some owner => Unit_CanAssistSpell w owner target spellInfo
  | None =>
    if HasFlag (UNIT_FIELD_FLAGS target) UNIT_FLAG_PLAYER_CONTROLLED
    then negb (GameObject_IsEnemy w this target)
    else GameObject_IsFriend w this target
  end.

(** [ReputationRank DynamicObject::GetReactionTo(Unit const* unit) const] *)
Definition DynamicObject_GetReactionTo (w : World) (this : DynamicObject) (unit : Unit)
  : ReputationRank :=
  match GetCaster w this with
  | Some caster => Unit_GetReactionTo w caster unit
  | None => REP_NEUTRAL
  end.

(** [bool DynamicObject::IsEnemy(Unit const* unit) const] *)
Definition DynamicObject_IsEnemy (w : World) (this : DynamicObject) (unit : Unit) : bool :=
  match GetCaster w this with
  | Some caster => Unit_IsEnemy w caster unit
  | None => false
  end.

(** [bool DynamicObject::IsFriend(Unit const* unit) const] *)
Definition DynamicObject_IsFriend (w : World) (this : DynamicObject) (unit : Unit) : bool :=
  match GetCaster w this with
  | Some caster => Unit_IsFriend w caster unit
  | None => false
  end.

(** [bool DynamicObject::CanAttackSpell(Unit const* target, SpellEntry
    const* spellInfo, bool isAOE) const] *)
Definition DynamicObject_CanAttackSpell (w : World) (this : DynamicObject) (target : Unit)
    (spellInfo : option SpellEntry) (isAOE : bool) : bool :=
  match GetCaster w this with
  | Some owner => Unit_CanAttackSpell w owner target spellInfo isAOE
  | None => false
  end.

(** Modelled from the spec: the default value of the parameter [isAOE] of
    [Unit::CanAttackSpell] is given in its declaration, outside
    Relations.cpp; the two-argument call is the plain, not area-of-effect,
    check. *)
Definition isAOE_default : bool := false.

(** [bool DynamicObject::CanAssistSpell(Unit const* target, SpellEntry
    const* spellInfo) const].  The body calls the owner's [CanAttackSpell]
    with two arguments. *)
Definition DynamicObject_CanAssistSpell (w : World) (this : DynamicObject) (target : Unit)
    (spellInfo : option SpellEntry) : bool :=
  match GetCaster w this with
  | Some owner => Unit_CanAttackSpell w owner target spellInfo isAOE_default
  | None => false
  end.

(** [bool Unit::IsInTeam(const Unit* other, bool ignoreCharms) const] *)
Definition Unit_IsInTeam (w : World) (this other : Unit) (ignoreCharms : bool) : bool :=
  if same_unit this other then true
  else if HasFlag (UNIT_FIELD_FLAGS this) UNIT_FLAG_PLAYER_CONTROLLED
          && HasFlag (UNIT_FIELD_FLAGS other) UNIT_FLAG_PLAYER_CONTROLLED
  then
    match GetControllingPlayer w this ignoreCharms with
    | Some (thisU, thisPlayer) =>
      match GetControllingPlayer w other ignoreCharms with
      | Some (otherU, otherPlayer) =>
        same_unit thisU otherU || (GetTeam thisPlayer =? GetTeam otherPlayer)
      | None => false
      end
    | None => false
    end
  else false.

(** Modelled from the spec: the default value of the parameter
    [ignoreCharms] of [Unit::IsInTeam] is given in its declaration, outside
    Relations.cpp; the team of a unit is the one of its permanent owner. *)
Definition IsInTeam_ignoreCharms_default : bool := true.

(** [other->GetTypeId() == TYPEID_PLAYER &&
     static_cast<Player const*>(other)->IsGameMaster()] *)
Definition isGameMasterPlayer (other : Unit) : bool :=
  match class other with
  | AsPlayer p => IsGameMaster p
  | AsCreature _ => false
  end.

(** [bool Unit::IsFogOfWarVisibleStealth(Unit const* other) const] *)
Definition Unit_IsFogOfWarVisibleStealth (w : World) (this other : Unit) : bool :=
  if isGameMasterPlayer other then true
  else if CONFIG_UINT32_FOGOFWAR_STEALTH w =? 1 then Unit_CanCooperate w this other
  else IsInGroup w this other false false.

(** [bool Unit::IsFogOfWarVisibleHealth(Unit const* other) const] *)
Definition Unit_IsFogOfWarVisibleHealth (w : World) (this other : Unit) : bool :=
  if isGameMasterPlayer other then true
  else if CONFIG_UINT32_FOGOFWAR_HEALTH w =? 1
  then Unit_IsInTeam w this other IsInTeam_ignoreCharms_default
  else if CONFIG_UINT32_FOGOFWAR_HEALTH w =? 2 then true
  else IsInGroup w this other false true.

(** [bool Unit::IsFogOfWarVisibleStats(Unit const* other) const] *)
Definition Unit_IsFogOfWarVisibleStats (w : World) (this other : Unit) : bool :=
  if isGameMasterPlayer other then true
  else if CONFIG_UINT32_FOGOFWAR_STATS w =? 1
  then Unit_IsInTeam w this other IsInTeam_ignoreCharms_default
  else if CONFIG_UINT32_FOGOFWAR_STATS w =? 2 then true
  else same_unit this other || (GetSummonerGuid this =? GetObjectGuid other).

(** The checks of [Unit::CanAttack] that precede the relation tests: the
    ghost rule, the target flags and the two immunity cross-checks. *)
Definition CanAttack_flagsBlock (this unit : Unit) : bool :=
  ghostBlocked this unit
  || HasFlag (UNIT_FIELD_FLAGS unit) attackMask
  || immuneBlocked (HasFlag (UNIT_FIELD_FLAGS this) UNIT_FLAG_PLAYER_CONTROLLED) unit
  || immuneBlocked (HasFlag (UNIT_FIELD_FLAGS unit) UNIT_FLAG_PLAYER_CONTROLLED) this.

(* ===================================================================== *)
(** ** The claims of the specification, in its own words                 *)
(* ===================================================================== *)

(** "b's group mask intersects a's enemy-group mask, or b's faction id is
    in a's explicit enemy list" *)
Definition spec_enemy_condition (a b : FactionTemplateEntry) : Prop :=
  Z.land (factionGroupMask b) (enemyGroupMask a) <> 0
  \/ In (faction b) (enemyFaction a).

(** The enemy test as the code makes it: the list counts only when its
    first slot is set and the other faction id is not 0. *)
Definition enemy_condition (a b : FactionTemplateEntry) : Prop :=
  Z.land (factionGroupMask b) (enemyGroupMask a) <> 0
  \/ (slot0 (enemyFaction a) <> 0 /\ faction b <> 0 /\ In (faction b) (enemyFaction a)).

(** The friend test as the code makes it, in both directions. *)
Definition friend_condition (a b : FactionTemplateEntry) : Prop :=
  Z.land (factionGroupMask b) (friendGroupMask a) <> 0
  \/ (slot0 (friendFaction a) <> 0 /\ faction b <> 0 /\ In (faction b) (friendFaction a))
  \/ Z.land (factionGroupMask a) (friendGroupMask b) <> 0
  \/ (slot0 (friendFaction b) <> 0 /\ faction a <> 0 /\ In (faction a) (friendFaction b)).

(* ===================================================================== *)
(** ** Fixtures                                                          *)
(* ===================================================================== *)

Module Demo.

Definition mkTemplate (f group friends enemies : Z) (guard : bool) : FactionTemplateEntry :=
  {| faction := f; factionGroupMask := group; friendGroupMask := friends;
     enemyGroupMask := enemies; enemyFaction := [0; 0; 0; 0];
     friendFaction := [0; 0; 0; 0]; IsContestedGuardFaction := guard |}.

(** Template 1: the players' side.  Template 2: the opposing side.
    Template 3: a town whose faction (30) tracks reputation and whose
    guards punish contested PvP. *)
Definition tAlliance : FactionTemplateEntry := mkTemplate 10 2 2 4 false.
Definition tHorde : FactionTemplateEntry := mkTemplate 20 4 4 2 false.
Definition tTown : FactionTemplateEntry := mkTemplate 30 0 0 0 true.

(** A template whose only enemy id sits in the second slot of the list. *)
Definition tSparse : FactionTemplateEntry :=
  {| faction := 40; factionGroupMask := 0; friendGroupMask := 0;
     enemyGroupMask := 0; enemyFaction := [0; 7; 0; 0];
     friendFaction := [0; 0; 0; 0]; IsContestedGuardFaction := false |}.
Definition tSeven : FactionTemplateEntry := mkTemplate 7 0 0 0 false.

(** A pair that meets an enemy and a friend condition at once. *)
Definition tWary : FactionTemplateEntry := mkTemplate 50 1 0 8 false.
Definition tFawning : FactionTemplateEntry := mkTemplate 60 8 1 0 false.

Definition noStanding : ReputationMgr :=
  {| GetForcedRankIfAny := fun _ => None;
     GetRank := fun _ => REP_NEUTRAL;
     IsAtWar := fun _ => false |}.

(** Forced to Friendly with faction 30, whatever the standing. *)
Definition forcedFriendly : ReputationMgr :=
  {| GetForcedRankIfAny := fun t => if faction t =? 30 then Some REP_FRIENDLY else None;
     GetRank := fun _ => REP_NEUTRAL;
     IsAtWar := fun _ => false |}.

Definition mkPlayer (pflags team arbiter : Z) (rep : ReputationMgr) (gm : bool) : Player :=
  {| PLAYER_FLAGS := pflags; PLAYER_DUEL_TEAM := team; PLAYER_DUEL_ARBITER := arbiter;
     GetReputationMgr := rep; GetGroup := None; SubGroup := 0; GetGuildId := 0;
     GetTeam := 469; IsGameMaster := gm; IsInDuelWith := fun _ => false |}.

Definition mkUnit (guid : Z) (c : UnitClass) (flags factionTemplate : Z) : Unit :=
  {| GetObjectGuid := guid; class := c; UNIT_FIELD_FLAGS := flags;
     GetFaction := factionTemplate; GetMasterGuid := 0; GetOwnerGuid := 0;
     GetCharmerGuid := 0; GetSummonerGuid := 0; GetPersuadedGuid := 0;
     IsAlive := true; IsPvP := false; IsPvPFreeForAll := false |}.

Definition npc : UnitClass := AsCreature {| VISIBLE_TO_GHOSTS := false |}.

(** Players *)
Definition alice : Unit :=
  mkUnit 1 (AsPlayer (mkPlayer 0 0 0 noStanding false)) UNIT_FLAG_PLAYER_CONTROLLED 1.
Definition outlaw : Unit :=
  mkUnit 2 (AsPlayer (mkPlayer PLAYER_FLAGS_CONTESTED_PVP 0 0 forcedFriendly false))
    UNIT_FLAG_PLAYER_CONTROLLED 1.
Definition gm : Unit :=
  mkUnit 3 (AsPlayer (mkPlayer 0 0 0 noStanding true)) UNIT_FLAG_PLAYER_CONTROLLED 1.

(** Duelists: arbiter 77, teams 1 and 2, a second member of team 2 who
    cannot be targeted, and a second member of team 1. *)
Definition duelist1 : Unit :=
  mkUnit 11 (AsPlayer (mkPlayer 0 1 77 noStanding false)) UNIT_FLAG_PLAYER_CONTROLLED 1.
Definition duelist2 : Unit :=
  mkUnit 12 (AsPlayer (mkPlayer 0 2 77 noStanding false)) UNIT_FLAG_PLAYER_CONTROLLED 1.
Definition duelist2_untargetable : Unit :=
  mkUnit 14 (AsPlayer (mkPlayer 0 2 77 noStanding false))
    (Z.lor UNIT_FLAG_PLAYER_CONTROLLED UNIT_FLAG_UNTARGETABLE) 1.
Definition duelist3 : Unit :=
  mkUnit 13 (AsPlayer (mkPlayer 0 1 77 noStanding false)) UNIT_FLAG_PLAYER_CONTROLLED 1.

(** Creatures *)
Definition footman : Unit := mkUnit 21 npc 0 1.
Definition peasant : Unit := mkUnit 22 npc 0 1.
Definition townGuard : Unit := mkUnit 23 npc 0 3.
Definition grunt : Unit := mkUnit 24 npc 0 2.
Definition persuadedTownsman : Unit := mkUnit 25 npc UNIT_FLAG_PERSUADED 3.

Definition world : World :=
  {| sFactionStore := list_to_map [(30, {| ID := 30; HasReputation := true |})];
     sFactionTemplateStore :=
       list_to_map [(1, tAlliance); (2, tHorde); (3, tTown)];
     units :=
       list_to_map
         [(1, alice); (2, outlaw); (3, gm); (11, duelist1); (12, duelist2);
          (13, duelist3); (14, duelist2_untargetable); (21, footman); (22, peasant); (23, townGuard);
          (24, grunt); (25, persuadedTownsman)];
     CONFIG_UINT32_FOGOFWAR_STEALTH := 0;
     CONFIG_UINT32_FOGOFWAR_HEALTH := 0;
     CONFIG_UINT32_FOGOFWAR_STATS := 0 |}.

(** The same world with an unrecognised stealth mode. *)
Definition world7 : World :=
  {| sFactionStore := sFactionStore world;
     sFactionTemplateStore := sFactionTemplateStore world;
     units := units world;
     CONFIG_UINT32_FOGOFWAR_STEALTH := 7;
     CONFIG_UINT32_FOGOFWAR_HEALTH := 7;
     CONFIG_UINT32_FOGOFWAR_STATS := 7 |}.

(** A spell proxy cast by the footman. *)
Definition consecration : DynamicObject := {| DO_CasterGuid := 21 |}.

End Demo.

(* ===================================================================== *)
(** ** The remaining relation queries of Relations.cpp                   *)
(* ===================================================================== *)

(** [bool Unit::IsInGuild(Unit const* other, bool ignoreCharms) const] *)
Definition Unit_IsInGuild (w : World) (this other : Unit) (ignoreCharms : bool) : bool :=
  if same_unit this other then true
  else if HasFlag (UNIT_FIELD_FLAGS this) UNIT_FLAG_PLAYER_CONTROLLED
          && HasFlag (UNIT_FIELD_FLAGS other) UNIT_FLAG_PLAYER_CONTROLLED
  then
    match GetControllingPlayer w this ignoreCharms with
    | Some (thisU, thisPlayer) =>
      match GetControllingPlayer w other ignoreCharms with
      | Some (otherU, otherPlayer) =>
        same_unit thisU otherU || (GetGuildId thisPlayer =? GetGuildId otherPlayer)
      | None => false
      end
    | None => false
    end
  else false.

(** [ReputationRank WorldObject::GetReactionTo(Unit const* unit) const] *)
Definition WorldObject_GetReactionTo (w : World) (unit : Unit) : ReputationRank :=
  REP_NEUTRAL.

(** [bool WorldObject::IsEnemy(Unit const* unit) const] *)
Definition WorldObject_IsEnemy (w : World) (unit : Unit) : bool := false.

(** [bool WorldObject::IsFriend(Unit const* unit) const] *)
Definition WorldObject_IsFriend (w : World) (unit : Unit) : bool := false.

(** A [Corpse]: its recorded faction template id and the guid of its owner. *)
Record Corpse : Type := {
  Corpse_GetFaction : Z;
  Corpse_GetOwnerGuid : Z
}.

(** [ReputationRank Unit::GetReactionTo(const Corpse* corpse) const] *)
Definition Unit_GetReactionTo_corpse (w : World) (this : Unit) (corpse : Corpse)
  : ReputationRank :=
  match GetFactionTemplateEntry w this with
  | Some thisTemplate =>
    if nonzero (Corpse_GetFaction corpse) then
      match sFactionTemplateStore w !! Corpse_GetFaction corpse with
      | Some corpseTemplate => GetFactionReaction_templates thisTemplate corpseTemplate
      | None => REP_NEUTRAL
      end
    else REP_NEUTRAL
  | None => REP_NEUTRAL
  end.

(** The state of a unit that only the remaining queries read.  Fields named
    after a getter hold what that getter returns; the flags of the creature
    info and of the pet mode hold the result of the flag test. *)
Record UnitAux : Type := {
  IsMounted : bool;
  UNIT_NPC_FLAGS : Z;
  IsShapeShifted : bool;
  GetShapeshiftForm : Z;
  HasVictim : bool;
  INTERACT_WHILE_DEAD : bool;
  IsPet : bool;
  PET_MODE_DISABLE_ACTIONS : bool;
  IsEvadingHome : bool;
  IsFeigningDeathSuccessfully : bool;
  IsIgnoringFeignDeath : bool;
  CanEnterCombat : bool;
  CanInitiateAttack : bool;
  HasAura_MOD_UNATTACKABLE : bool;
  IsInCombat : bool;
  MapInstanceable : bool
}.

(** [struct SpellShapeshiftFormEntry]: the test
    [flags1 & SHAPESHIFT_FLAG_CAN_NPC_INTERACT]. *)
Record SpellShapeshiftFormEntry : Type := {
  SHAPESHIFT_FLAG_CAN_NPC_INTERACT : bool
}.

(** The world together with the rest of the state and configuration that
    the remaining queries consult. *)
Record Server : Type := {
  server_world : World;
  aux : Unit -> UnitAux;
  sSpellShapeshiftFormStore : gmap Z SpellShapeshiftFormEntry;
  CONFIG_BOOL_ALLOW_TWO_SIDE_INTERACTION_GROUP : bool
}.

(** Modelled from the spec: the unit flag constant is declared in a header
    that is not part of Relations.cpp; it is a bit of its own. *)
Definition UNIT_FLAG_PET_IN_COMBAT : Z := 0x00000800.

(** Modelled from the spec: the team constant is declared in a header that
    is not part of Relations.cpp; it is the id of one of the two teams. *)
Definition ALLIANCE : Z := 469.

(** Modelled from the spec: [sObjectMgr.GetPlayer] is defined outside
    Relations.cpp; it finds the player with the given guid, if any. *)
Definition GetPlayer (w : World) (guid : Z) : option PlayerPtr :=
  match GetUnit w guid with
  | Some u => toPlayer u
  | None => None
  end.

(** [ReputationRank Player::GetReactionTo(const Corpse* corpse) const].
    The crossfaction branch passes two looked-up templates to the
    template-to-template reaction, which asserts both: [None] is the failed
    assertion. *)
Definition Player_GetReactionTo_corpse (s : Server) (this : PlayerPtr) (corpse : Corpse)
  : option ReputationRank :=
  let '(thisU, thisP) := this in
  let w := server_world s in
  let crossfaction :=
    match GetPlayer w (Corpse_GetOwnerGuid corpse) with
    | Some (ownerU, ownerP) =>
      negb (same_unit thisU ownerU) && negb (GetTeam thisP =? GetTeam ownerP)
      && (CONFIG_BOOL_ALLOW_TWO_SIDE_INTERACTION_GROUP s
          && Player_IsInGroup w (thisU, thisP) ownerU false false)
    | None => false
    end in
  if crossfaction then
    let id := if GetTeam thisP =? ALLIANCE then 1054 else 1495 in
    match GetFactionTemplateEntry w thisU, sFactionTemplateStore w !! id with
    | Some thisTemplate, Some otherTemplate =>
      Some (GetFactionReaction_templates thisTemplate otherTemplate)
    | _, _ => None
    end
  else Some (Unit_GetReactionTo_corpse w thisU corpse).

(** The virtual call [GetReactionTo(corpse)] on a unit: players override
    the corpse overload of [Unit::GetReactionTo]. *)
Definition GetReactionTo_corpse (s : Server) (this : Unit) (corpse : Corpse)
  : option ReputationRank :=
  match class this with
  | AsPlayer p => Player_GetReactionTo_corpse s (this, p) corpse
  | AsCreature _ => Some (Unit_GetReactionTo_corpse (server_world s) this corpse)
  end.

(** [bool Unit::CanAssist(Corpse const* corpse) const] *)
Definition Unit_CanAssist_corpse (s : Server) (this : Unit) (corpse : Corpse)
  : option bool :=
  match GetReactionTo_corpse s this corpse with
  | Some r => Some (rank_gtb r REP_NEUTRAL)
  | None => None
  end.

(** [bool Unit::CanAttackNow(const Unit* unit) const] *)
Definition Unit_CanAttackNow (s : Server) (this unit : Unit) : bool :=
  if negb (IsAlive this) then false
  else if IsMounted (aux s this) then false
  else if negb (IsAlive unit) then false
  else Unit_CanAttack (server_world s) this unit.

(** [GetTypeId() == TYPEID_PLAYER &&
     static_cast<const Player*>(this)->HasFlag(PLAYER_FLAGS, PLAYER_FLAGS_GHOST)] *)
Definition isGhostPlayer (this : Unit) : bool :=
  match class this with
  | AsPlayer p => HasFlag (PLAYER_FLAGS p) PLAYER_FLAGS_GHOST
  | AsCreature _ => false
  end.

(** [bool Unit::CanInteract(const GameObject* object) const] *)
Definition Unit_CanInteract_object (w : World) (this : Unit) (object : GameObject) : bool :=
  if isGhostPlayer this then false
  else rank_gtb (GameObject_GetReactionTo w object this) REP_UNFRIENDLY.

(** [unit->GetTypeId() != TYPEID_UNIT ||
     !(static_cast<const Creature*>(unit)->GetCreatureInfo()->HasFlag(VISIBLE_TO_GHOSTS))] *)
Definition notGhostVisibleCreature (unit : Unit) : bool :=
  match class unit with
  | AsCreature c => negb (VISIBLE_TO_GHOSTS c)
  | AsPlayer _ => true
  end.

(** [bool Unit::CanInteract(const Unit* unit) const] *)
Definition Unit_CanInteract (s : Server) (this unit : Unit) : bool :=
  let w := server_world s in
  if HasFlag (UNIT_FIELD_FLAGS unit) UNIT_FLAG_UNINTERACTIBLE then false
  else if negb (nonzero (UNIT_NPC_FLAGS (aux s unit))) then false
  else if isGhostPlayer this && notGhostVisibleCreature unit then false
  else rank_gtb (Unit_GetReactionTo w this unit) REP_UNFRIENDLY
       && rank_gtb (Unit_GetReactionTo w unit this) REP_UNFRIENDLY.

(** The shapeshift test of [Unit::CanInteractNow]: shifted into a known form
    that lacks the interaction permission. *)
Definition shapeshiftBlocks (s : Server) (this : Unit) : bool :=
  if IsShapeShifted (aux s this) then
    match sSpellShapeshiftFormStore s !! GetShapeshiftForm (aux s this) with
    | Some formEntry => negb (SHAPESHIFT_FLAG_CAN_NPC_INTERACT formEntry)
    | None => false
    end
  else false.

(** The dead-unit test of [Unit::CanInteractNow]:
    [if (!unit->IsAlive()) if (GetTypeId() != TYPEID_UNIT ||
       !(static_cast<const Creature*>(unit)->...HasFlag(INTERACT_WHILE_DEAD)))
       return false;]
    The type test is on the caller and the cast on [unit]; where [unit] is
    no creature the cast has no defined result, which is [None]. *)
Definition deadUnitBlocks (s : Server) (this unit : Unit) : option bool :=
  if negb (IsAlive unit) then
    match class this with
    | AsPlayer _ => Some true
    | AsCreature _ =>
      match class unit with
      | AsCreature _ => Some (negb (INTERACT_WHILE_DEAD (aux s unit)))
      | AsPlayer _ => None
      end
    end
  else Some false.

(** [bool Unit::CanInteractNow(const Unit* unit) const] *)
Definition Unit_CanInteractNow (s : Server) (this unit : Unit) : option bool :=
  if HasFlag (UNIT_FIELD_FLAGS this) UNIT_FLAG_TAXI_FLIGHT then Some false
  else if nonzero (GetCharmerGuid this) then Some false
  else if negb (IsAlive this) && negb (isGhostPlayer this) then Some false
  else if shapeshiftBlocks s this then Some false
  else
    match deadUnitBlocks s this unit with
    | None => None
    | Some true => Some false
    | Some false =>
      if nonzero (GetCharmerGuid unit) then Some false
      else if HasFlag (UNIT_FIELD_FLAGS unit) UNIT_FLAG_PET_IN_COMBAT
              || HasVictim (aux s unit)
      then Some false
      else Some (Unit_CanInteract s this unit)
    end.

(** [bool Unit::CanAttackOnSight(Unit const* target) const] *)
Definition Unit_CanAttackOnSight (s : Server) (this target : Unit) : bool :=
  let w := server_world s in
  if IsEvadingHome (aux s target) then false
  else if negb (IsIgnoringFeignDeath (aux s this))
          && IsFeigningDeathSuccessfully (aux s target)
  then false
  else if
    match class target with
    | AsCreature _ => IsPet (aux s target) && PET_MODE_DISABLE_ACTIONS (aux s target)
    | AsPlayer _ => false
    end
  then false
  else Unit_CanAttack w this target && Unit_IsEnemy w this target.

(** [bool Unit::CanJoinInAttacking(Unit const* enemy) const] *)
Definition Unit_CanJoinInAttacking (s : Server) (this enemy : Unit) : bool :=
  if negb (CanEnterCombat (aux s this)) then false
  else if negb (CanInitiateAttack (aux s this)) then false
  else if IsFeigningDeathSuccessfully (aux s this) then false
  else if HasAura_MOD_UNATTACKABLE (aux s this) then false
  else if negb (Unit_CanAttack (server_world s) this enemy) then false
  else true.

(** [bool Unit::CanAssistInCombatAgainst(Unit const* who, Unit const* enemy) const] *)
Definition Unit_CanAssistInCombatAgainst (s : Server) (this who enemy : Unit) : bool :=
  if MapInstanceable (aux s this) then Unit_CanJoinInAttacking s this enemy
  else if IsInCombat (aux s this) then false
  else if Unit_CanAssist (server_world s) this who && Unit_CanAttackOnSight s this enemy
  then true
  else false.

(** The two switches that [Unit::CanAttackSpell] hands on: both are the
    spell's ignore-restrictions attribute, false without a spell. *)
Definition spellIgnoresRestrictions (spellInfo : option SpellEntry) : bool :=
  match spellInfo with
  | Some s => SPELL_ATTR_EX3_IGNORE_CASTER_AND_TARGET_RESTRICTIONS s
  | None => false
  end.

Module DemoX.

(** Two players of one group (5), and a pet of Demo.alice. *)
Definition mkGrouped (team : Z) : Player :=
  {| PLAYER_FLAGS := 0; PLAYER_DUEL_TEAM := 0; PLAYER_DUEL_ARBITER := 0;
     GetReputationMgr := Demo.noStanding; GetGroup := Some 5; SubGroup := 0;
     GetGuildId := 0; GetTeam := team; IsGameMaster := false;
     IsInDuelWith := fun _ => false |}.

Definition bob : Unit :=
  Demo.mkUnit 31 (AsPlayer (mkGrouped 469)) UNIT_FLAG_PLAYER_CONTROLLED 1.
Definition carol : Unit :=
  Demo.mkUnit 32 (AsPlayer (mkGrouped 469)) UNIT_FLAG_PLAYER_CONTROLLED 1.

Definition alicePet : Unit :=
  {| GetObjectGuid := 41; class := Demo.npc;
     UNIT_FIELD_FLAGS := UNIT_FLAG_PLAYER_CONTROLLED;
     GetFaction := 1; GetMasterGuid := 1; GetOwnerGuid := 1;
     GetCharmerGuid := 0; GetSummonerGuid := 1; GetPersuadedGuid := 0;
     IsAlive := true; IsPvP := false; IsPvPFreeForAll := false |}.

(** A player at war with the town's faction. *)
Definition atWar : ReputationMgr :=
  {| GetForcedRankIfAny := fun _ => None;
     GetRank := fun _ => REP_HOSTILE;
     IsAtWar := fun _ => true |}.

(** The ghost of a player. *)
Definition ghost : Unit :=
  Demo.mkUnit 45 (AsPlayer (Demo.mkPlayer PLAYER_FLAGS_GHOST 0 0 Demo.noStanding false))
    UNIT_FLAG_PLAYER_CONTROLLED 1.

(** A creature of an unknown faction template, and a taxi passenger. *)
Definition stranger : Unit := Demo.mkUnit 42 Demo.npc 0 99.
Definition passenger : Unit := Demo.mkUnit 43 Demo.npc UNIT_FLAG_TAXI_FLIGHT 2.

(** A totem that carries the player-controlled flag but has lost its
    master. *)
Definition orphanTotem : Unit :=
  Demo.mkUnit 44 Demo.npc UNIT_FLAG_PLAYER_CONTROLLED 1.

Definition idle : UnitAux :=
  {| IsMounted := false; UNIT_NPC_FLAGS := 1; IsShapeShifted := false;
     GetShapeshiftForm := 0; HasVictim := false; INTERACT_WHILE_DEAD := false;
     IsPet := false; PET_MODE_DISABLE_ACTIONS := false; IsEvadingHome := false;
     IsFeigningDeathSuccessfully := false; IsIgnoringFeignDeath := false;
     CanEnterCombat := true; CanInitiateAttack := true;
     HasAura_MOD_UNATTACKABLE := false; IsInCombat := false;
     MapInstanceable := false |}.

Definition server : Server :=
  {| server_world := Demo.world;
     aux := fun _ => idle;
     sSpellShapeshiftFormStore := ∅;
     CONFIG_BOOL_ALLOW_TWO_SIDE_INTERACTION_GROUP := false |}.

(** Game objects: a trap without owner or faction, a banner of the town. *)
Definition trap : GameObject := {| GO_OwnerGuid := 0; GAMEOBJECT_FACTION := 0 |}.
Definition banner : GameObject := {| GO_OwnerGuid := 0; GAMEOBJECT_FACTION := 2 |}.

(** Corpses: of the own side, and of an unrecorded faction. *)
Definition friendlyCorpse : Corpse := {| Corpse_GetFaction := 1; Corpse_GetOwnerGuid := 1 |}.
Definition namelessCorpse : Corpse := {| Corpse_GetFaction := 0; Corpse_GetOwnerGuid := 0 |}.

End DemoX.

(* ===================================================================== *)
(** ** Basic facts                                                       *)
(* ===================================================================== *)

Lemma nonzero_true (x : Z) : nonzero x = true <-> x <> 0.
Proof.
  unfold nonzero. rewrite negb_true_iff, Z.eqb_neq. tauto.
Qed.

Lemma nonzero_false (x : Z) : nonzero x = false <-> x = 0.
Proof.
  unfold nonzero. rewrite negb_false_iff, Z.eqb_eq. tauto.
Qed.

Lemma scan_In (arr : list Z) (id : Z) : scan arr id = true <-> In id arr.
Proof.
  unfold scan. rewrite existsb_exists. split.
  - intros [x [Hin Heq]]. apply Z.eqb_eq in Heq. now subst.
  - intros Hin. exists id. split; [assumption | apply Z.eqb_refl].
Qed.

Lemma listed_true (arr : list Z) (id : Z) :
  nonzero (slot0 arr) && nonzero id && scan arr id = true
  <-> slot0 arr <> 0 /\ id <> 0 /\ In id arr.
Proof.
  rewrite !andb_true_iff, !nonzero_true, scan_In. tauto.
Qed.

Lemma same_unit_refl (u : Unit) : same_unit u u = true.
Proof. apply Z.eqb_refl. Qed.

Lemma rank_ltb_lt (a b : ReputationRank) : rank_ltb a b = true <-> rank_lt a b.
Proof. apply Z.ltb_lt. Qed.

Lemma rank_gtb_lt (a b : ReputationRank) : rank_gtb a b = true <-> rank_lt b a.
Proof. apply Z.ltb_lt. Qed.


Lemma GetReactionTo_self (w : World) (e : Unit) :
  Unit_GetReactionTo w e e = REP_FRIENDLY.
Proof.
  unfold Unit_GetReactionTo, GetReactionTo_earlyReturn.
  now rewrite same_unit_refl.
Qed.

Lemma CanAttack_unfold (w : World) (this unit : Unit) :
  Unit_CanAttack w this unit =
  if CanAttack_flagsBlock this unit then false
  else attackByRelation w this unit
         (HasFlag (UNIT_FIELD_FLAGS this) UNIT_FLAG_PLAYER_CONTROLLED)
         (HasFlag (UNIT_FIELD_FLAGS unit) UNIT_FLAG_PLAYER_CONTROLLED).
Proof.
  unfold Unit_CanAttack, CanAttack_flagsBlock.
  destruct (ghostBlocked this unit); simpl; [reflexivity|].
  destruct (HasFlag (UNIT_FIELD_FLAGS unit) attackMask); simpl; [reflexivity|].
  destruct (immuneBlocked _ unit); simpl; [reflexivity|].
  destruct (immuneBlocked _ this); reflexivity.
Qed.

(** The template reaction, by cases on the two tests of the code. *)
Lemma templates_enemy (a b : FactionTemplateEntry) :
  enemy_condition a b -> GetFactionReaction_templates a b = REP_HOSTILE.
Proof.
  intros Henemy. unfold GetFactionReaction_templates.
  destruct (nonzero (Z.land (factionGroupMask b) (enemyGroupMask a))) eqn:Hmask;
    [reflexivity|].
  destruct Henemy as [Hm | Hl].
  - apply nonzero_true in Hm. congruence.
  - apply listed_true in Hl. now rewrite Hl.
Qed.

Lemma templates_not_enemy (a b : FactionTemplateEntry) :
  ~ enemy_condition a b ->
  nonzero (Z.land (factionGroupMask b) (enemyGroupMask a)) = false
  /\ nonzero (slot0 (enemyFaction a)) && nonzero (faction b)
     && scan (enemyFaction a) (faction b) = false.
Proof.
  intros Hno. split.
  - apply not_true_is_false. intros H. apply nonzero_true in H.
    apply Hno. now left.
  - apply not_true_is_false. intros H. apply listed_true in H.
    apply Hno. now right.
Qed.

Lemma templates_friend (a b : FactionTemplateEntry) :
  ~ enemy_condition a b -> friend_condition a b ->
  GetFactionReaction_templates a b = REP_FRIENDLY.
Proof.
  intros Hno Hfriend. destruct (templates_not_enemy a b Hno) as [E1 E2].
  unfold GetFactionReaction_templates. rewrite E1, E2.
  destruct (nonzero (Z.land (factionGroupMask b) (friendGroupMask a))) eqn:F1;
    [reflexivity|].
  destruct (nonzero (slot0 (friendFaction a)) && nonzero (faction b)
            && scan (friendFaction a) (faction b)) eqn:F2; [reflexivity|].
  destruct (nonzero (Z.land (factionGroupMask a) (friendGroupMask b))) eqn:F3;
    [reflexivity|].
  destruct (nonzero (slot0 (friendFaction b)) && nonzero (faction a)
            && scan (friendFaction b) (faction a)) eqn:F4; [reflexivity|].
  exfalso. destruct Hfriend as [H | [H | [H | H]]].
  - apply nonzero_true in H. congruence.
  - apply listed_true in H. congruence.
  - apply nonzero_true in H. congruence.
  - apply listed_true in H. congruence.
Qed.

Lemma templates_neutral (a b : FactionTemplateEntry) :
  ~ enemy_condition a b -> ~ friend_condition a b ->
  GetFactionReaction_templates a b = REP_NEUTRAL.
Proof.
  intros Hno Hnf. destruct (templates_not_enemy a b Hno) as [E1 E2].
  unfold GetFactionReaction_templates. rewrite E1, E2.
  destruct (nonzero (Z.land (factionGroupMask b) (friendGroupMask a))) eqn:F1.
  { exfalso. apply Hnf. left. now apply nonzero_true. }
  destruct (nonzero (slot0 (friendFaction a)) && nonzero (faction b)
            && scan (friendFaction a) (faction b)) eqn:F2.
  { exfalso. apply Hnf. right; left. now apply listed_true. }
  destruct (nonzero (Z.land (factionGroupMask a) (friendGroupMask b))) eqn:F3.
  { exfalso. apply Hnf. right; right; left. now apply nonzero_true. }
  destruct (nonzero (slot0 (friendFaction b)) && nonzero (faction a)
            && scan (friendFaction b) (faction a)) eqn:F4.
  { exfalso. apply Hnf. right; right; right. now apply listed_true. }
  reflexivity.
Qed.

(* ===================================================================== *)
(** ** C1: reaction to self                                              *)
(* ===================================================================== *)

(** C1, as stated, fails: the reaction of a unit to itself is REP_FRIENDLY,
    and REP_FRIENDLY is not the top of the rank ordering (REP_HONORED,
    which [Unit::GetReactionTo] itself compares against, lies above it). *)
Lemma C1_self_reaction_not_top :
  Unit_GetReactionTo Demo.world Demo.alice Demo.alice = REP_FRIENDLY
  /\ ~ most_friendly_rank (Unit_GetReactionTo Demo.world Demo.alice Demo.alice).
Proof.
  split; [reflexivity|].
  intros Htop. specialize (Htop REP_HONORED).
  rewrite GetReactionTo_self in Htop. unfold rank_le in Htop. simpl in Htop. lia.
Qed.

(** C1 (amended): for every world and every unit [e], the reaction of [e]
    to itself is REP_FRIENDLY. *)
Theorem C1_self_reaction_friendly (w : World) (e : Unit) :
  Unit_GetReactionTo w e e = REP_FRIENDLY.
Proof. apply GetReactionTo_self. Qed.

(* ===================================================================== *)
(** ** C3: enmity before friendliness between templates                  *)
(* ===================================================================== *)

(** C3, as stated, fails: the enemy id 7 is in the explicit enemy list of
    the first template, in its second slot, yet the reaction is not
    REP_HOSTILE, because the list is read only when its first slot is set. *)
Lemma C3_listed_enemy_not_hostile :
  spec_enemy_condition Demo.tSparse Demo.tSeven
  /\ GetFactionReaction_templates Demo.tSparse Demo.tSeven <> REP_HOSTILE.
Proof.
  split.
  - right. simpl. tauto.
  - vm_compute. discriminate.
Qed.

(** C3 (amended): for every pair of templates [a], [b], the reaction is
    REP_HOSTILE whenever an enemy condition holds ([b]'s group mask meets
    [a]'s enemy mask, or [a]'s enemy list has its first slot set and holds
    [b]'s nonzero faction id), also when friend conditions hold; it is
    REP_FRIENDLY when no enemy condition and some friend condition holds,
    and REP_NEUTRAL when neither holds. *)
Theorem C3_enmity_precedence (a b : FactionTemplateEntry) :
  (enemy_condition a b -> GetFactionReaction_templates a b = REP_HOSTILE)
  /\ (~ enemy_condition a b -> friend_condition a b ->
      GetFactionReaction_templates a b = REP_FRIENDLY)
  /\ (~ enemy_condition a b -> ~ friend_condition a b ->
      GetFactionReaction_templates a b = REP_NEUTRAL).
Proof.
  split; [apply templates_enemy|].
  split; [apply templates_friend | apply templates_neutral].
Qed.

(** A pair that satisfies an enemy and a friend condition: enmity wins. *)
Lemma C3_enmity_precedence_witness :
  enemy_condition Demo.tWary Demo.tFawning
  /\ friend_condition Demo.tWary Demo.tFawning
  /\ GetFactionReaction_templates Demo.tWary Demo.tFawning = REP_HOSTILE.
Proof.
  assert (He : enemy_condition Demo.tWary Demo.tFawning).
  { left. vm_compute. discriminate. }
  split; [exact He|]. split.
  - right; right; left. vm_compute. discriminate.
  - exact (proj1 (C3_enmity_precedence Demo.tWary Demo.tFawning) He).
Defined.

(* ===================================================================== *)
(** ** C4: the two boolean views of a reaction                           *)
(* ===================================================================== *)

(** C4: for every pair of units, IsEnemy holds exactly when the reaction is
    strictly below REP_UNFRIENDLY and IsFriend exactly when it is strictly
    above REP_NEUTRAL; whenever the reaction is REP_NEUTRAL or
    REP_UNFRIENDLY both are false, and such a pair exists. *)
Theorem C4_enemy_friend_thresholds :
  (forall (w : World) (a b : Unit),
      (Unit_IsEnemy w a b = true <-> rank_lt (Unit_GetReactionTo w a b) REP_UNFRIENDLY)
      /\ (Unit_IsFriend w a b = true <-> rank_lt REP_NEUTRAL (Unit_GetReactionTo w a b)))
  /\ (forall (w : World) (a b : Unit),
         Unit_GetReactionTo w a b = REP_NEUTRAL
         \/ Unit_GetReactionTo w a b = REP_UNFRIENDLY ->
         Unit_IsEnemy w a b = false /\ Unit_IsFriend w a b = false)
  /\ (exists (w : World) (a b : Unit),
         Unit_IsEnemy w a b = false /\ Unit_IsFriend w a b = false).
Proof.
  split; [|split].
  - intros w a b. unfold Unit_IsEnemy, Unit_IsFriend.
    split; [apply rank_ltb_lt | apply rank_gtb_lt].
  - intros w a b [H | H]; unfold Unit_IsEnemy, Unit_IsFriend; rewrite H;
      split; reflexivity.
  - exists Demo.world, Demo.townGuard, Demo.alice. split; reflexivity.
Qed.

(** The town guard is neutral to the player: neither enemy nor friend. *)
Lemma C4_enemy_friend_thresholds_witness :
  Unit_GetReactionTo Demo.world Demo.townGuard Demo.alice = REP_NEUTRAL
  /\ Unit_IsEnemy Demo.world Demo.townGuard Demo.alice = false
  /\ Unit_IsFriend Demo.world Demo.townGuard Demo.alice = false.
Proof.
  assert (H : Unit_GetReactionTo Demo.world Demo.townGuard Demo.alice = REP_NEUTRAL)
    by reflexivity.
  split; [exact H|].
  exact (proj1 (proj2 C4_enemy_friend_thresholds)
           Demo.world Demo.townGuard Demo.alice (or_introl H)).
Defined.

(* ===================================================================== *)
(** ** C10: no unit can attack itself                                    *)
(* ===================================================================== *)

Lemma IsFriend_self (w : World) (u : Unit) : Unit_IsFriend w u u = true.
Proof. unfold Unit_IsFriend. now rewrite GetReactionTo_self. Qed.

Lemma IsEnemy_self (w : World) (u : Unit) : Unit_IsEnemy w u u = false.
Proof. unfold Unit_IsEnemy. now rewrite GetReactionTo_self. Qed.

(** C10: for every unit [u], of any kind and with any flags,
    CanAttack(u, u) is false. *)
Theorem C10_no_self_attack (w : World) (u : Unit) :
  Unit_CanAttack w u u = false.
Proof.
  rewrite CanAttack_unfold.
  destruct (CanAttack_flagsBlock u u); [reflexivity|].
  unfold attackByRelation.
  rewrite IsFriend_self, IsEnemy_self.
  destruct (HasFlag (UNIT_FIELD_FLAGS u) UNIT_FLAG_PLAYER_CONTROLLED); reflexivity.
Qed.

(* ===================================================================== *)
(** ** C6: the two shapes of CanAttack                                   *)
(* ===================================================================== *)

(** C6, as stated, fails in its second half: a player and a town guard form
    a mixed pair that no flag or immunity check blocks in either direction;
    the player sees the guard as friendly (not at war), the guard sees the
    player as neutral (the player's standing), so the guard may attack the
    player while the player may not attack the guard. *)
Lemma C6_mixed_pair_not_symmetric :
  HasFlag (UNIT_FIELD_FLAGS Demo.alice) UNIT_FLAG_PLAYER_CONTROLLED = true
  /\ HasFlag (UNIT_FIELD_FLAGS Demo.townGuard) UNIT_FLAG_PLAYER_CONTROLLED = false
  /\ CanAttack_flagsBlock Demo.alice Demo.townGuard = false
  /\ CanAttack_flagsBlock Demo.townGuard Demo.alice = false
  /\ Unit_CanAttack Demo.world Demo.alice Demo.townGuard = false
  /\ Unit_CanAttack Demo.world Demo.townGuard Demo.alice = true.
Proof. repeat split; reflexivity. Qed.

(** C6 (amended): when no earlier flag or immunity check blocks, for a pair
    where neither side is player-controlled CanAttack(a,b) is
    IsEnemy(a,b) or IsEnemy(b,a), and for a pair where exactly one side is
    player-controlled CanAttack(a,b) is the single check not IsFriend(a,b),
    taken from the caller's side only. *)
Theorem C6_CanAttack_shapes (w : World) (a b : Unit) :
  CanAttack_flagsBlock a b = false ->
  (HasFlag (UNIT_FIELD_FLAGS a) UNIT_FLAG_PLAYER_CONTROLLED = false ->
   HasFlag (UNIT_FIELD_FLAGS b) UNIT_FLAG_PLAYER_CONTROLLED = false ->
   Unit_CanAttack w a b = Unit_IsEnemy w a b || Unit_IsEnemy w b a)
  /\ (HasFlag (UNIT_FIELD_FLAGS a) UNIT_FLAG_PLAYER_CONTROLLED
      <> HasFlag (UNIT_FIELD_FLAGS b) UNIT_FLAG_PLAYER_CONTROLLED ->
      Unit_CanAttack w a b = negb (Unit_IsFriend w a b)).
Proof.
  intros Hpass. rewrite CanAttack_unfold, Hpass. unfold attackByRelation.
  split.
  - intros Ha Hb. now rewrite Ha, Hb.
  - intros Hmixed.
    destruct (HasFlag (UNIT_FIELD_FLAGS a) UNIT_FLAG_PLAYER_CONTROLLED),
             (HasFlag (UNIT_FIELD_FLAGS b) UNIT_FLAG_PLAYER_CONTROLLED);
      simpl; congruence.
Qed.

Lemma C6_CanAttack_shapes_witness :
  (Unit_CanAttack Demo.world Demo.footman Demo.grunt
   = Unit_IsEnemy Demo.world Demo.footman Demo.grunt
     || Unit_IsEnemy Demo.world Demo.grunt Demo.footman)
  /\ Unit_CanAttack Demo.world Demo.alice Demo.grunt
     = negb (Unit_IsFriend Demo.world Demo.alice Demo.grunt).
Proof.
  split.
  - apply (proj1 (C6_CanAttack_shapes Demo.world Demo.footman Demo.grunt eq_refl));
      reflexivity.
  - apply (proj2 (C6_CanAttack_shapes Demo.world Demo.alice Demo.grunt eq_refl)).
    vm_compute. discriminate.
Defined.

(** Where neither side is player-controlled and no check blocks in either
    direction, the disjunction makes CanAttack symmetric. *)
Remark CanAttack_npc_pair_symmetric (w : World) (a b : Unit) :
  CanAttack_flagsBlock a b = false -> CanAttack_flagsBlock b a = false ->
  HasFlag (UNIT_FIELD_FLAGS a) UNIT_FLAG_PLAYER_CONTROLLED = false ->
  HasFlag (UNIT_FIELD_FLAGS b) UNIT_FLAG_PLAYER_CONTROLLED = false ->
  Unit_CanAttack w a b = Unit_CanAttack w b a.
Proof.
  intros Hab Hba Ha Hb. rewrite !CanAttack_unfold, Hab, Hba.
  unfold attackByRelation. rewrite Ha, Hb. simpl. apply orb_comm.
Qed.

(* ===================================================================== *)
(** ** C7: duels                                                         *)
(* ===================================================================== *)

(** An uncharmed player is its own controlling player. *)
Lemma GetControllingPlayer_player (w : World) (u : Unit) (p : Player) :
  class u = AsPlayer p -> GetMasterGuid u = 0 ->
  GetControllingPlayer w u false = Some (u, p).
Proof.
  intros Hclass Hmaster. unfold GetControllingPlayer, toPlayer.
  now rewrite Hmaster, Hclass.
Qed.

Section Duel.

Variable w : World.
Variables a b : Unit.
Variables pa pb : Player.

Hypothesis a_player : class a = AsPlayer pa.
Hypothesis b_player : class b = AsPlayer pb.
Hypothesis a_controlled :
  HasFlag (UNIT_FIELD_FLAGS a) UNIT_FLAG_PLAYER_CONTROLLED = true.
Hypothesis b_controlled :
  HasFlag (UNIT_FIELD_FLAGS b) UNIT_FLAG_PLAYER_CONTROLLED = true.
Hypothesis a_own_master : GetMasterGuid a = 0.
Hypothesis b_own_master : GetMasterGuid b = 0.
Hypothesis distinct : GetObjectGuid a <> GetObjectGuid b.
Hypothesis a_team : PLAYER_DUEL_TEAM pa <> 0.
Hypothesis b_team : PLAYER_DUEL_TEAM pb <> 0.
Hypothesis same_arbiter : PLAYER_DUEL_ARBITER pa = PLAYER_DUEL_ARBITER pb.

Lemma duel_sameDuel : sameDuel pa pb = true.
Proof.
  unfold sameDuel. rewrite !andb_true_iff, !nonzero_true, Z.eqb_eq. tauto.
Qed.

Lemma duel_not_same_unit : same_unit a b = false.
Proof. unfold same_unit. now apply Z.eqb_neq. Qed.

Lemma duel_reaction :
  Unit_GetReactionTo w a b =
  if negb (PLAYER_DUEL_TEAM pa =? PLAYER_DUEL_TEAM pb) then REP_HOSTILE else REP_FRIENDLY.
Proof.
  unfold Unit_GetReactionTo, GetReactionTo_earlyReturn, GetReactionTo_playerSpecific.
  rewrite duel_not_same_unit, a_controlled, b_controlled.
  rewrite (GetControllingPlayer_player w a pa a_player a_own_master).
  rewrite (GetControllingPlayer_player w b pb b_player b_own_master).
  unfold GetReactionTo_bothControlled.
  now rewrite duel_not_same_unit, duel_sameDuel.
Qed.

Lemma duel_opposing_teams :
  PLAYER_DUEL_TEAM pa <> PLAYER_DUEL_TEAM pb ->
  Unit_GetReactionTo w a b = REP_HOSTILE
  /\ Unit_CanAttack w a b = negb (CanAttack_flagsBlock a b).
Proof.
  intros Hteams. apply Z.eqb_neq in Hteams.
  assert (Hr : Unit_GetReactionTo w a b = REP_HOSTILE).
  { rewrite duel_reaction, Hteams. reflexivity. }
  split; [exact Hr|].
  rewrite CanAttack_unfold.
  destruct (CanAttack_flagsBlock a b); [reflexivity|].
  unfold attackByRelation, Unit_IsFriend.
  rewrite a_controlled, b_controlled, Hr. simpl.
  rewrite (GetControllingPlayer_player w a pa a_player a_own_master).
  rewrite (GetControllingPlayer_player w b pb b_player b_own_master).
  now rewrite duel_sameDuel.
Qed.

Lemma duel_same_team :
  PLAYER_DUEL_TEAM pa = PLAYER_DUEL_TEAM pb ->
  Unit_GetReactionTo w a b = REP_FRIENDLY /\ Unit_CanAttack w a b = false.
Proof.
  intros Hteams. apply Z.eqb_eq in Hteams.
  assert (Hr : Unit_GetReactionTo w a b = REP_FRIENDLY).
  { rewrite duel_reaction, Hteams. reflexivity. }
  split; [exact Hr|].
  rewrite CanAttack_unfold.
  destruct (CanAttack_flagsBlock a b); [reflexivity|].
  unfold attackByRelation, Unit_IsFriend.
  rewrite a_controlled, b_controlled, Hr. reflexivity.
Qed.

End Duel.

(** C7, as stated, fails: two distinct players duel under the same arbiter
    on opposing teams, the reaction is REP_HOSTILE, but the target carries
    UNIT_FLAG_UNTARGETABLE and CanAttack is false. *)
Lemma C7_duel_target_flag_blocks :
  GetTypeId Demo.duelist1 = TYPEID_PLAYER
  /\ GetTypeId Demo.duelist2_untargetable = TYPEID_PLAYER
  /\ GetControllingPlayer Demo.world Demo.duelist1 false = toPlayer Demo.duelist1
  /\ GetControllingPlayer Demo.world Demo.duelist2_untargetable false
     = toPlayer Demo.duelist2_untargetable
  /\ Unit_GetReactionTo Demo.world Demo.duelist1 Demo.duelist2_untargetable = REP_HOSTILE
  /\ Unit_CanAttack Demo.world Demo.duelist1 Demo.duelist2_untargetable = false.
Proof. repeat split; reflexivity. Qed.

(** C7 (amended): for every two distinct players, each player-controlled
    and its own controlling player, that are enrolled in a duel with the
    same arbiter and nonzero duel teams: if the teams differ, GetReactionTo
    is REP_HOSTILE and CanAttack is true exactly when none of its flag and
    immunity checks blocks; if the teams are equal, GetReactionTo is
    REP_FRIENDLY and CanAttack is false. *)
Theorem C7_duel_teams (w : World) (a b : Unit) (pa pb : Player) :
  class a = AsPlayer pa -> class b = AsPlayer pb ->
  HasFlag (UNIT_FIELD_FLAGS a) UNIT_FLAG_PLAYER_CONTROLLED = true ->
  HasFlag (UNIT_FIELD_FLAGS b) UNIT_FLAG_PLAYER_CONTROLLED = true ->
  GetMasterGuid a = 0 -> GetMasterGuid b = 0 ->
  GetObjectGuid a <> GetObjectGuid b ->
  PLAYER_DUEL_TEAM pa <> 0 -> PLAYER_DUEL_TEAM pb <> 0 ->
  PLAYER_DUEL_ARBITER pa = PLAYER_DUEL_ARBITER pb ->
  (PLAYER_DUEL_TEAM pa <> PLAYER_DUEL_TEAM pb ->
   Unit_GetReactionTo w a b = REP_HOSTILE
   /\ Unit_CanAttack w a b = negb (CanAttack_flagsBlock a b))
  /\ (PLAYER_DUEL_TEAM pa = PLAYER_DUEL_TEAM pb ->
      Unit_GetReactionTo w a b = REP_FRIENDLY /\ Unit_CanAttack w a b = false).
Proof.
  intros. split.
  - now apply duel_opposing_teams with (pa := pa) (pb := pb).
  - now apply duel_same_team with (pa := pa) (pb := pb).
Qed.

Lemma C7_duel_teams_witness :
  (Unit_GetReactionTo Demo.world Demo.duelist1 Demo.duelist2 = REP_HOSTILE
   /\ Unit_CanAttack Demo.world Demo.duelist1 Demo.duelist2 = true)
  /\ (Unit_GetReactionTo Demo.world Demo.duelist1 Demo.duelist3 = REP_FRIENDLY
      /\ Unit_CanAttack Demo.world Demo.duelist1 Demo.duelist3 = false).
Proof.
  split.
  - refine (proj1 (C7_duel_teams Demo.world Demo.duelist1 Demo.duelist2 _ _
                     eq_refl eq_refl eq_refl eq_refl eq_refl eq_refl _ _ _ eq_refl) _);
      simpl; lia.
  - refine (proj2 (C7_duel_teams Demo.world Demo.duelist1 Demo.duelist3 _ _
                     eq_refl eq_refl eq_refl eq_refl eq_refl eq_refl _ _ _ eq_refl) _);
      simpl; lia.
Defined.

(* ===================================================================== *)
(** ** C2: order of the player overrides in template-to-unit reaction    *)
(* ===================================================================== *)

(** C2, as stated, fails: the outlaw is player-controlled and resolves to
    itself, a forced rank REP_FRIENDLY exists for the town template, yet the
    reaction of that template to the outlaw is REP_HOSTILE: the contested
    PvP test against a contested-guard faction comes before the forced
    rank. *)
Lemma C2_contested_beats_forced_rank :
  HasFlag (UNIT_FIELD_FLAGS Demo.outlaw) UNIT_FLAG_PLAYER_CONTROLLED = true
  /\ (exists p : Player,
        GetControllingPlayer Demo.world Demo.outlaw false = Some (Demo.outlaw, p)
        /\ GetForcedRankIfAny (GetReputationMgr p) Demo.tTown = Some REP_FRIENDLY)
  /\ GetFactionReaction_unit Demo.world (Some Demo.tTown) Demo.outlaw = REP_HOSTILE.
Proof.
  split; [reflexivity|]. split; [|reflexivity].
  eexists. split; reflexivity.
Qed.

(** C2 (amended): in the reaction of a template to a player-controlled unit
    that has a faction template and a controlling player, the overrides
    apply in this order.  First the contested-PvP plus contested-guard
    faction override: when it applies the result is REP_HOSTILE, whether or
    not a forced rank exists.  Then the forced rank: when the contested
    override does not apply and a forced rank exists for that player and
    template, it is the result, whatever the computed reputation rank or
    the faction-template fallback.  Then the reputation-derived rank, when
    the template's faction tracks reputation; otherwise the faction-template
    fallback. *)
Theorem C2_forced_rank_after_contested
    (w : World) (thisTemplate unitTemplate : FactionTemplateEntry)
    (unit unitPlayerU : Unit) (unitPlayer : Player) :
  GetFactionTemplateEntry w unit = Some unitTemplate ->
  HasFlag (UNIT_FIELD_FLAGS unit) UNIT_FLAG_PLAYER_CONTROLLED = true ->
  GetControllingPlayer w unit false = Some (unitPlayerU, unitPlayer) ->
  let contested :=
    HasFlag (PLAYER_FLAGS unitPlayer) PLAYER_FLAGS_CONTESTED_PVP
    && IsContestedGuardFaction thisTemplate in
  let forced := GetForcedRankIfAny (GetReputationMgr unitPlayer) thisTemplate in
  (contested = true ->
   GetFactionReaction_unit w (Some thisTemplate) unit = REP_HOSTILE)
  /\ (contested = false ->
      forall rank : ReputationRank, forced = Some rank ->
      GetFactionReaction_unit w (Some thisTemplate) unit = rank)
  /\ (contested = false -> forced = None ->
      forall e : FactionEntry,
        sFactionStore w !! faction thisTemplate = Some e -> HasReputation e = true ->
        GetFactionReaction_unit w (Some thisTemplate) unit
        = GetRank (GetReputationMgr unitPlayer) e)
  /\ (contested = false -> forced = None ->
      (sFactionStore w !! faction thisTemplate = None
       \/ exists e : FactionEntry,
            sFactionStore w !! faction thisTemplate = Some e /\ HasReputation e = false) ->
      GetFactionReaction_unit w (Some thisTemplate) unit
      = GetFactionReaction_templates thisTemplate unitTemplate).
Proof.
  intros Htemplate Hcontrolled Hplayer contested forced.
  unfold GetFactionReaction_unit.
  rewrite Htemplate, Hcontrolled, Hplayer. fold contested. fold forced.
  split; [|split; [|split]].
  - intros Hc. now rewrite Hc.
  - intros Hc rank Hf. now rewrite Hc, Hf.
  - intros Hc Hf e He Hrep. now rewrite Hc, Hf, He, Hrep.
  - intros Hc Hf [He | [e [He Hrep]]]; rewrite Hc, Hf, He; [reflexivity|].
    now rewrite Hrep.
Qed.

(** The contested outlaw, forced to Friendly with faction 30: the town's
    contested-guard template answers Hostile in spite of the forced rank; a
    template of the same faction that is no contested-guard faction answers
    with the forced rank, although its fallback is Hostile and the standing
    Neutral; and a player without a forced rank gets his standing. *)
Lemma C2_forced_rank_after_contested_witness :
  GetFactionReaction_unit Demo.world (Some Demo.tTown) Demo.outlaw = REP_HOSTILE
  /\ GetFactionReaction_unit Demo.world
       (Some (Demo.mkTemplate 30 0 0 2 false)) Demo.outlaw = REP_FRIENDLY
  /\ GetFactionReaction_unit Demo.world (Some Demo.tTown) Demo.alice = REP_NEUTRAL.
Proof.
  split; [|split].
  - exact (proj1 (C2_forced_rank_after_contested Demo.world Demo.tTown
                    Demo.tAlliance Demo.outlaw Demo.outlaw _
                    eq_refl eq_refl eq_refl) eq_refl).
  - exact (proj1 (proj2 (C2_forced_rank_after_contested Demo.world
                           (Demo.mkTemplate 30 0 0 2 false)
                           Demo.tAlliance Demo.outlaw Demo.outlaw _
                           eq_refl eq_refl eq_refl)) eq_refl REP_FRIENDLY eq_refl).
  - exact (proj1 (proj2 (proj2 (C2_forced_rank_after_contested Demo.world Demo.tTown
                                  Demo.tAlliance Demo.alice Demo.alice _
                                  eq_refl eq_refl eq_refl)))
             eq_refl eq_refl {| ID := 30; HasReputation := true |} eq_refl eq_refl).
Defined.

(* ===================================================================== *)
(** ** C8: persuasion                                                    *)
(* ===================================================================== *)




(* ===================================================================== *)
(** ** C9: fog-of-war gates                                              *)
(* ===================================================================== *)

(** C9: for every unit and every game-master player viewer the three
    fog-of-war gates return true, whatever the configured modes of the
    world; and for a viewer that is no game master, every configuration
    value other than the recognised ones (1 for stealth; 1 and 2 for health
    and stats) selects the default branch: same group, same group ignoring
    charms, and self-or-own-summoner. *)
Theorem C9_fog_of_war_gates (w : World) (this other : Unit) :
  (forall p : Player,
      class other = AsPlayer p -> IsGameMaster p = true ->
      Unit_IsFogOfWarVisibleStealth w this other = true
      /\ Unit_IsFogOfWarVisibleHealth w this other = true
      /\ Unit_IsFogOfWarVisibleStats w this other = true)
  /\ (isGameMasterPlayer other = false ->
      (CONFIG_UINT32_FOGOFWAR_STEALTH w <> 1 ->
       Unit_IsFogOfWarVisibleStealth w this other = IsInGroup w this other false false)
      /\ (CONFIG_UINT32_FOGOFWAR_HEALTH w <> 1 -> CONFIG_UINT32_FOGOFWAR_HEALTH w <> 2 ->
          Unit_IsFogOfWarVisibleHealth w this other = IsInGroup w this other false true)
      /\ (CONFIG_UINT32_FOGOFWAR_STATS w <> 1 -> CONFIG_UINT32_FOGOFWAR_STATS w <> 2 ->
          Unit_IsFogOfWarVisibleStats w this other
          = same_unit this other || (GetSummonerGuid this =? GetObjectGuid other))).
Proof.
  split.
  - intros p Hclass Hgm.
    unfold Unit_IsFogOfWarVisibleStealth, Unit_IsFogOfWarVisibleHealth,
      Unit_IsFogOfWarVisibleStats, isGameMasterPlayer.
    rewrite Hclass, Hgm. repeat split.
  - intros Hnot.
    unfold Unit_IsFogOfWarVisibleStealth, Unit_IsFogOfWarVisibleHealth,
      Unit_IsFogOfWarVisibleStats.
    rewrite Hnot. repeat split.
    + intros H1. apply Z.eqb_neq in H1. now rewrite H1.
    + intros H1 H2. apply Z.eqb_neq in H1, H2. now rewrite H1, H2.
    + intros H1 H2. apply Z.eqb_neq in H1, H2. now rewrite H1, H2.
Qed.

(** The game master sees the grunt in every respect; under the unrecognised
    stealth mode 7 a plain player is gated by the group test. *)
Lemma C9_fog_of_war_gates_witness :
  (Unit_IsFogOfWarVisibleStealth Demo.world Demo.grunt Demo.gm = true
   /\ Unit_IsFogOfWarVisibleHealth Demo.world Demo.grunt Demo.gm = true
   /\ Unit_IsFogOfWarVisibleStats Demo.world Demo.grunt Demo.gm = true)
  /\ Unit_IsFogOfWarVisibleStealth Demo.world7 Demo.grunt Demo.alice
     = IsInGroup Demo.world7 Demo.grunt Demo.alice false false.
Proof.
  split.
  - exact (proj1 (C9_fog_of_war_gates Demo.world Demo.grunt Demo.gm) _ eq_refl eq_refl).
  - refine (proj1 (proj2 (C9_fog_of_war_gates Demo.world7 Demo.grunt Demo.alice) eq_refl) _).
    simpl. lia.
Defined.

(* ===================================================================== *)
(** ** C5: proxies that delegate to their owner                          *)
(* ===================================================================== *)

(** With a live caster, a dynamic object answers the three relation queries
    and CanAttackSpell with the caster's answer. *)
Lemma DynamicObject_delegates (w : World) (d : DynamicObject) (caster target : Unit)
    (spellInfo : option SpellEntry) (isAOE : bool) :
  GetCaster w d = Some caster ->
  DynamicObject_GetReactionTo w d target = Unit_GetReactionTo w caster target
  /\ DynamicObject_IsEnemy w d target = Unit_IsEnemy w caster target
  /\ DynamicObject_IsFriend w d target = Unit_IsFriend w caster target
  /\ DynamicObject_CanAttackSpell w d target spellInfo isAOE
     = Unit_CanAttackSpell w caster target spellInfo isAOE.
Proof.
  intros Hcaster.
  unfold DynamicObject_GetReactionTo, DynamicObject_IsEnemy, DynamicObject_IsFriend,
    DynamicObject_CanAttackSpell.
  rewrite Hcaster. repeat split.
Qed.

(** Without a caster, a dynamic object is neutral and answers false. *)
Lemma DynamicObject_defaults (w : World) (d : DynamicObject) (target : Unit)
    (spellInfo : option SpellEntry) (isAOE : bool) :
  GetCaster w d = None ->
  DynamicObject_GetReactionTo w d target = REP_NEUTRAL
  /\ DynamicObject_IsEnemy w d target = false
  /\ DynamicObject_IsFriend w d target = false
  /\ DynamicObject_CanAttackSpell w d target spellInfo isAOE = false
  /\ DynamicObject_CanAssistSpell w d target spellInfo = false.
Proof.
  intros Hcaster.
  unfold DynamicObject_GetReactionTo, DynamicObject_IsEnemy, DynamicObject_IsFriend,
    DynamicObject_CanAttackSpell, DynamicObject_CanAssistSpell.
  rewrite Hcaster. repeat split.
Qed.

(** With a live owner, a game object answers all five queries with the
    owner's answer to the query of the same name. *)
Lemma GameObject_delegates (w : World) (go : GameObject) (owner target : Unit)
    (spellInfo : option SpellEntry) (isAOE : bool) :
  GetOwner w go = Some owner ->
  GameObject_GetReactionTo w go target = Unit_GetReactionTo w owner target
  /\ GameObject_IsEnemy w go target = Unit_IsEnemy w owner target
  /\ GameObject_IsFriend w go target = Unit_IsFriend w owner target
  /\ GameObject_CanAttackSpell w go target spellInfo isAOE
     = Unit_CanAttackSpell w owner target spellInfo isAOE
  /\ GameObject_CanAssistSpell w go target spellInfo
     = Unit_CanAssistSpell w owner target spellInfo.
Proof.
  intros Howner.
  unfold GameObject_GetReactionTo, GameObject_IsEnemy, GameObject_IsFriend,
    GameObject_CanAttackSpell, GameObject_CanAssistSpell.
  rewrite Howner. repeat split.
Qed.

(** Without an owner, a game object falls back to its own faction id, and
    to neutral / false when it has none or the id is unknown. *)
Lemma GameObject_fallback (w : World) (go : GameObject) (target : Unit) :
  GetOwner w go = None ->
  match GO_factionTemplate w go with
  | Some t =>
    GameObject_GetReactionTo w go target = GetFactionReaction_unit w (Some t) target
    /\ GameObject_IsEnemy w go target
       = rank_ltb (GetFactionReaction_unit w (Some t) target) REP_UNFRIENDLY
    /\ GameObject_IsFriend w go target
       = rank_gtb (GetFactionReaction_unit w (Some t) target) REP_NEUTRAL
  | None =>
    GameObject_GetReactionTo w go target = REP_NEUTRAL
    /\ GameObject_IsEnemy w go target = false
    /\ GameObject_IsFriend w go target = false
  end.
Proof.
  intros Howner.
  unfold GameObject_GetReactionTo, GameObject_IsEnemy, GameObject_IsFriend.
  rewrite Howner. destruct (GO_factionTemplate w go); repeat split.
Qed.

(** Without an owner, the two spell queries of a game object are derived
    from its own IsFriend and IsEnemy, by the kind of target. *)
Lemma GameObject_spell_fallback (w : World) (go : GameObject) (target : Unit)
    (spellInfo : option SpellEntry) (isAOE : bool) :
  GetOwner w go = None ->
  GameObject_CanAttackSpell w go target spellInfo isAOE
  = (if HasFlag (UNIT_FIELD_FLAGS target) UNIT_FLAG_PLAYER_CONTROLLED
     then negb (GameObject_IsFriend w go target)
     else GameObject_IsEnemy w go target)
  /\ GameObject_CanAssistSpell w go target spellInfo
     = (if HasFlag (UNIT_FIELD_FLAGS target) UNIT_FLAG_PLAYER_CONTROLLED
        then negb (GameObject_IsEnemy w go target)
        else GameObject_IsFriend w go target).
Proof.
  intros Howner. unfold GameObject_CanAttackSpell, GameObject_CanAssistSpell.
  rewrite Howner. split; reflexivity.
Qed.

(** With a live caster, [DynamicObject::CanAssistSpell] answers with the
    caster's CanAttackSpell. *)
Lemma DynamicObject_CanAssistSpell_asks_attack (w : World) (d : DynamicObject)
    (caster target : Unit) (spellInfo : option SpellEntry) :
  GetCaster w d = Some caster ->
  DynamicObject_CanAssistSpell w d target spellInfo
  = Unit_CanAttackSpell w caster target spellInfo isAOE_default.
Proof.
  intros Hcaster. unfold DynamicObject_CanAssistSpell. now rewrite Hcaster.
Qed.

(** C5, the failing input: a spell proxy whose live caster is a footman,
    queried against a peasant of the footman's own faction.  The caster can
    assist the peasant with a spell and cannot attack it (whether or not
    the spell is area-of-effect); the proxy's CanAssistSpell returns false,
    the caster's CanAttackSpell, instead of the caster's CanAssistSpell. *)
Theorem C5_DynamicObject_CanAssistSpell_diverges :
  GetCaster Demo.world Demo.consecration = Some Demo.footman
  /\ Unit_CanAssistSpell Demo.world Demo.footman Demo.peasant None = true
  /\ (forall isAOE : bool,
         Unit_CanAttackSpell Demo.world Demo.footman Demo.peasant None isAOE = false)
  /\ DynamicObject_CanAssistSpell Demo.world Demo.consecration Demo.peasant None = false.
Proof.
  split; [reflexivity|]. split; [reflexivity|]. split; [|reflexivity].
  intros []; reflexivity.
Qed.

(* ===================================================================== *)
(** ** Further properties: faction templates                             *)
(* ===================================================================== *)

Lemma templates_reaction_cases (a b : FactionTemplateEntry) :
  GetFactionReaction_templates a b = REP_HOSTILE
  \/ GetFactionReaction_templates a b = REP_NEUTRAL
  \/ GetFactionReaction_templates a b = REP_FRIENDLY.
Proof.
  unfold GetFactionReaction_templates.
  repeat match goal with
         | |- context [if ?c then _ else _] => destruct c
         end; tauto.
Qed.

(** X1: the reaction between two templates is always one of REP_HOSTILE,
    REP_NEUTRAL and REP_FRIENDLY, so the reaction of a template to a unit
    leaves these three only through a player's forced rank or standing. *)
Theorem templates_reaction_range (a b : FactionTemplateEntry) :
  rank_le REP_HOSTILE (GetFactionReaction_templates a b)
  /\ rank_le (GetFactionReaction_templates a b) REP_FRIENDLY
  /\ GetFactionReaction_templates a b <> REP_UNFRIENDLY.
Proof.
  unfold rank_le.
  destruct (templates_reaction_cases a b) as [H | [H | H]]; rewrite H;
    simpl; repeat split; try lia; discriminate.
Qed.

(** X2: when neither template meets an enemy condition against the other,
    the reaction is the same in both directions. *)
Theorem templates_reaction_symmetric (a b : FactionTemplateEntry) :
  ~ enemy_condition a b -> ~ enemy_condition b a ->
  GetFactionReaction_templates a b = GetFactionReaction_templates b a.
Proof.
  intros Hab Hba.
  destruct (templates_not_enemy a b Hab) as [E1 E2].
  destruct (templates_not_enemy b a Hba) as [E3 E4].
  unfold GetFactionReaction_templates. rewrite E1, E2, E3, E4.
  destruct (nonzero (Z.land (factionGroupMask b) (friendGroupMask a)));
    destruct (nonzero (slot0 (friendFaction a)) && nonzero (faction b)
              && scan (friendFaction a) (faction b));
    destruct (nonzero (Z.land (factionGroupMask a) (friendGroupMask b)));
    destruct (nonzero (slot0 (friendFaction b)) && nonzero (faction a)
              && scan (friendFaction b) (faction a)); reflexivity.
Qed.

Lemma templates_reaction_symmetric_witness :
  GetFactionReaction_templates Demo.tAlliance Demo.tTown
  = GetFactionReaction_templates Demo.tTown Demo.tAlliance.
Proof.
  apply templates_reaction_symmetric.
  - intros [H | [H _]]; vm_compute in H; congruence.
  - intros [H | [H _]]; vm_compute in H; congruence.
Defined.

(** X3: the reaction of a template to a unit is REP_NEUTRAL whenever the
    template is absent or the unit has no faction template, whatever the
    unit's player, forced ranks or standing. *)
Theorem GetFactionReaction_unit_missing_template
    (w : World) (thisTemplate : option FactionTemplateEntry) (unit : Unit) :
  thisTemplate = None \/ GetFactionTemplateEntry w unit = None ->
  GetFactionReaction_unit w thisTemplate unit = REP_NEUTRAL.
Proof.
  intros [H | H]; unfold GetFactionReaction_unit.
  - now rewrite H.
  - rewrite H. now destruct thisTemplate.
Qed.

Lemma GetFactionReaction_unit_missing_template_witness :
  GetFactionReaction_unit Demo.world (Some Demo.tHorde) DemoX.stranger = REP_NEUTRAL.
Proof.
  apply GetFactionReaction_unit_missing_template. right. reflexivity.
Defined.



(* ===================================================================== *)
(** ** Further properties: unit to unit reaction                         *)
(* ===================================================================== *)

(** X5: two distinct player-controlled units of which one has no
    controlling player are neutral to each other. *)
Theorem GetReactionTo_no_controlling_player (w : World) (a b : Unit) :
  same_unit a b = false ->
  HasFlag (UNIT_FIELD_FLAGS a) UNIT_FLAG_PLAYER_CONTROLLED = true ->
  HasFlag (UNIT_FIELD_FLAGS b) UNIT_FLAG_PLAYER_CONTROLLED = true ->
  GetControllingPlayer w a false = None \/ GetControllingPlayer w b false = None ->
  Unit_GetReactionTo w a b = REP_NEUTRAL.
Proof.
  intros Hab Ha Hb Hnone.
  unfold Unit_GetReactionTo, GetReactionTo_earlyReturn, GetReactionTo_playerSpecific.
  rewrite Hab, Ha, Hb. unfold GetReactionTo_bothControlled.
  destruct Hnone as [H | H]; rewrite H.
  - reflexivity.
  - destruct (GetControllingPlayer w a false) as [[? ?]|]; reflexivity.
Qed.

Lemma GetReactionTo_no_controlling_player_witness :
  Unit_GetReactionTo Demo.world Demo.alice DemoX.orphanTotem = REP_NEUTRAL.
Proof.
  apply GetReactionTo_no_controlling_player; try reflexivity. right. reflexivity.
Defined.

(** X6: two distinct player-controlled units that resolve to the same
    controlling player (a player and its pet) are friendly. *)
Theorem GetReactionTo_same_controlling_player
    (w : World) (a b pa pb : Unit) (p q : Player) :
  same_unit a b = false ->
  HasFlag (UNIT_FIELD_FLAGS a) UNIT_FLAG_PLAYER_CONTROLLED = true ->
  HasFlag (UNIT_FIELD_FLAGS b) UNIT_FLAG_PLAYER_CONTROLLED = true ->
  GetControllingPlayer w a false = Some (pa, p) ->
  GetControllingPlayer w b false = Some (pb, q) ->
  same_unit pa pb = true ->
  Unit_GetReactionTo w a b = REP_FRIENDLY.
Proof.
  intros Hab Ha Hb Hpa Hpb Hsame.
  unfold Unit_GetReactionTo, GetReactionTo_earlyReturn, GetReactionTo_playerSpecific.
  rewrite Hab, Ha, Hb, Hpa, Hpb. unfold GetReactionTo_bothControlled.
  now rewrite Hsame.
Qed.

Lemma GetReactionTo_same_controlling_player_witness :
  Unit_GetReactionTo Demo.world DemoX.alicePet Demo.alice = REP_FRIENDLY.
Proof.
  exact (GetReactionTo_same_controlling_player Demo.world DemoX.alicePet Demo.alice
           Demo.alice Demo.alice _ _ eq_refl eq_refl eq_refl eq_refl eq_refl eq_refl).
Defined.

(** X7: two distinct players, each player-controlled and its own
    controlling player, that belong to the same group and are not enrolled
    in one duel are friendly, whatever their factions and PvP state. *)
Theorem GetReactionTo_same_group
    (w : World) (a b : Unit) (pa pb : Player) (group : Z) :
  class a = AsPlayer pa -> class b = AsPlayer pb ->
  HasFlag (UNIT_FIELD_FLAGS a) UNIT_FLAG_PLAYER_CONTROLLED = true ->
  HasFlag (UNIT_FIELD_FLAGS b) UNIT_FLAG_PLAYER_CONTROLLED = true ->
  GetMasterGuid a = 0 -> GetMasterGuid b = 0 ->
  GetObjectGuid a <> GetObjectGuid b ->
  sameDuel pa pb = false ->
  GetGroup pa = Some group -> GetGroup pb = Some group ->
  Unit_GetReactionTo w a b = REP_FRIENDLY.
Proof.
  intros Hca Hcb Ha Hb Hma Hmb Hne Hduel Hga Hgb.
  assert (Hab : same_unit a b = false) by (unfold same_unit; now apply Z.eqb_neq).
  unfold Unit_GetReactionTo, GetReactionTo_earlyReturn, GetReactionTo_playerSpecific.
  rewrite Hab, Ha, Hb.
  rewrite (GetControllingPlayer_player w a pa Hca Hma).
  rewrite (GetControllingPlayer_player w b pb Hcb Hmb).
  unfold GetReactionTo_bothControlled, Player_IsInGroup, Unit_IsInGroup.
  rewrite Hab, Hduel. simpl. rewrite Ha, Hb. simpl.
  rewrite (GetControllingPlayer_player w a pa Hca Hma).
  rewrite (GetControllingPlayer_player w b pb Hcb Hmb).
  unfold sameGroup. rewrite Hab, Hga, Hgb, Z.eqb_refl. reflexivity.
Qed.

Lemma GetReactionTo_same_group_witness :
  Unit_GetReactionTo Demo.world DemoX.bob DemoX.carol = REP_FRIENDLY.
Proof.
  refine (GetReactionTo_same_group Demo.world DemoX.bob DemoX.carol _ _ 5
            eq_refl eq_refl eq_refl eq_refl eq_refl eq_refl _ eq_refl eq_refl eq_refl).
  simpl. lia.
Defined.

(** X8: in the reaction of a player-controlled unit with a controlling
    player to a unit that is not player-controlled, a forced rank of that
    player for the unit's faction template is the result; it comes before
    the contested-PvP and at-war tests. *)
Theorem GetReactionTo_forced_rank_first
    (w : World) (this unit pu : Unit) (p : Player)
    (unitTemplate : FactionTemplateEntry) (rank : ReputationRank) :
  same_unit this unit = false ->
  HasFlag (UNIT_FIELD_FLAGS this) UNIT_FLAG_PLAYER_CONTROLLED = true ->
  HasFlag (UNIT_FIELD_FLAGS unit) UNIT_FLAG_PLAYER_CONTROLLED = false ->
  GetControllingPlayer w this false = Some (pu, p) ->
  GetFactionTemplateEntry w unit = Some unitTemplate ->
  GetForcedRankIfAny (GetReputationMgr p) unitTemplate = Some rank ->
  Unit_GetReactionTo w this unit = rank.
Proof.
  intros Hne Hthis Hunit Hp Ht Hforced.
  unfold Unit_GetReactionTo, GetReactionTo_earlyReturn, GetReactionTo_playerSpecific,
    GetReactionTo_thisPlayer.
  now rewrite Hne, Hthis, Hunit, Hp, Ht, Hforced.
Qed.

(** The contested outlaw sees the town guard as friendly by its forced rank,
    while the guard's template sees the outlaw as hostile. *)
Lemma GetReactionTo_forced_rank_first_witness :
  Unit_GetReactionTo Demo.world Demo.outlaw Demo.townGuard = REP_FRIENDLY
  /\ GetFactionReaction_unit Demo.world (Some Demo.tTown) Demo.outlaw = REP_HOSTILE.
Proof.
  split; [|reflexivity].
  exact (GetReactionTo_forced_rank_first Demo.world Demo.outlaw Demo.townGuard
           Demo.outlaw _ Demo.tTown REP_FRIENDLY
           eq_refl eq_refl eq_refl eq_refl eq_refl eq_refl).
Defined.

(** X9: every unit is neutral to another unit that is not player-controlled
    and has no faction template. *)
Theorem GetReactionTo_unit_without_template (w : World) (this unit : Unit) :
  same_unit this unit = false ->
  HasFlag (UNIT_FIELD_FLAGS unit) UNIT_FLAG_PLAYER_CONTROLLED = false ->
  GetFactionTemplateEntry w unit = None ->
  Unit_GetReactionTo w this unit = REP_NEUTRAL.
Proof.
  intros Hne Hunit Ht.
  assert (Hraw : rawReaction w this unit = REP_NEUTRAL).
  { unfold rawReaction, GetFactionReaction_unit. rewrite Ht.
    now destruct (GetFactionTemplateEntry w this). }
  assert (Hfall : GetReactionTo_fallback w this unit = REP_NEUTRAL).
  { unfold GetReactionTo_fallback, factionTracksReputation. rewrite Hraw, Ht.
    now destruct (_ && _). }
  unfold Unit_GetReactionTo, GetReactionTo_earlyReturn, GetReactionTo_playerSpecific,
    GetReactionTo_thisPlayer.
  rewrite Hne, Hunit, Ht.
  destruct (HasFlag (UNIT_FIELD_FLAGS this) UNIT_FLAG_PLAYER_CONTROLLED);
    [|exact Hfall].
  destruct (GetControllingPlayer w this false) as [[? ?]|]; exact Hfall.
Qed.

Lemma GetReactionTo_unit_without_template_witness :
  Unit_GetReactionTo Demo.world Demo.alice DemoX.stranger = REP_NEUTRAL
  /\ Unit_GetReactionTo Demo.world Demo.grunt DemoX.stranger = REP_NEUTRAL.
Proof.
  split; apply GetReactionTo_unit_without_template; reflexivity.
Defined.

(** X10: no unit sees another both as an enemy and as a friend. *)
Theorem IsEnemy_IsFriend_exclusive (w : World) (a b : Unit) :
  Unit_IsEnemy w a b && Unit_IsFriend w a b = false.
Proof.
  unfold Unit_IsEnemy, Unit_IsFriend, rank_ltb, rank_gtb.
  destruct (Unit_GetReactionTo w a b); reflexivity.
Qed.

(** X11: for each kind of object the two boolean views agree with the
    object's own reaction: IsEnemy is the reaction below REP_UNFRIENDLY and
    IsFriend the reaction above REP_NEUTRAL, with or without an owner. *)
Theorem object_views_agree_with_reaction
    (w : World) (go : GameObject) (d : DynamicObject) (unit : Unit) :
  (GameObject_IsEnemy w go unit = rank_ltb (GameObject_GetReactionTo w go unit) REP_UNFRIENDLY
   /\ GameObject_IsFriend w go unit = rank_gtb (GameObject_GetReactionTo w go unit) REP_NEUTRAL)
  /\ (DynamicObject_IsEnemy w d unit
      = rank_ltb (DynamicObject_GetReactionTo w d unit) REP_UNFRIENDLY
      /\ DynamicObject_IsFriend w d unit
         = rank_gtb (DynamicObject_GetReactionTo w d unit) REP_NEUTRAL)
  /\ (WorldObject_IsEnemy w unit = rank_ltb (WorldObject_GetReactionTo w unit) REP_UNFRIENDLY
      /\ WorldObject_IsFriend w unit = rank_gtb (WorldObject_GetReactionTo w unit) REP_NEUTRAL).
Proof.
  split; [|split].
  - unfold GameObject_IsEnemy, GameObject_IsFriend, GameObject_GetReactionTo.
    destruct (GetOwner w go); [split; reflexivity|].
    destruct (GO_factionTemplate w go); split; reflexivity.
  - unfold DynamicObject_IsEnemy, DynamicObject_IsFriend, DynamicObject_GetReactionTo.
    destruct (GetCaster w d); split; reflexivity.
  - split; reflexivity.
Qed.

(* ===================================================================== *)
(** ** Further properties: attack checks                                 *)
(* ===================================================================== *)

Lemma HasFlag_lor_l (field a b : Z) :
  HasFlag field a = true -> HasFlag field (Z.lor a b) = true.
Proof.
  unfold HasFlag. rewrite !nonzero_true, Z.land_lor_distr_r, Z.lor_eq_0_iff. tauto.
Qed.

Lemma HasFlag_lor_r (field a b : Z) :
  HasFlag field b = true -> HasFlag field (Z.lor a b) = true.
Proof.
  unfold HasFlag. rewrite !nonzero_true, Z.land_lor_distr_r, Z.lor_eq_0_iff. tauto.
Qed.

Lemma attackMask_member (field flag : Z) :
  In flag [UNIT_FLAG_SPAWNING; UNIT_FLAG_NOT_ATTACKABLE_1; UNIT_FLAG_UNTARGETABLE;
           UNIT_FLAG_TAXI_FLIGHT; UNIT_FLAG_UNINTERACTIBLE] ->
  HasFlag field flag = true -> HasFlag field attackMask = true.
Proof.
  unfold attackMask. simpl.
  intros [<- | [<- | [<- | [<- | [<- | []]]]]] H.
  - now apply HasFlag_lor_l.
  - now apply HasFlag_lor_r, HasFlag_lor_l.
  - now apply HasFlag_lor_r, HasFlag_lor_r, HasFlag_lor_l.
  - now apply HasFlag_lor_r, HasFlag_lor_r, HasFlag_lor_r, HasFlag_lor_l.
  - now apply HasFlag_lor_r, HasFlag_lor_r, HasFlag_lor_r, HasFlag_lor_r.
Qed.

(** X12: a target that carries any one of the flags spawning,
    not-attackable, untargetable, taxi-flight or uninteractible cannot be
    attacked, by CanAttack or by CanAttackServerside, and the two
    ignore-restriction switches of the latter do not lift this. *)
Theorem attack_blocked_by_target_flag (w : World) (this unit : Unit) (flag : Z) :
  In flag [UNIT_FLAG_SPAWNING; UNIT_FLAG_NOT_ATTACKABLE_1; UNIT_FLAG_UNTARGETABLE;
           UNIT_FLAG_TAXI_FLIGHT; UNIT_FLAG_UNINTERACTIBLE] ->
  HasFlag (UNIT_FIELD_FLAGS unit) flag = true ->
  Unit_CanAttack w this unit = false
  /\ forall ignoreFlagsSource ignoreFlagsTarget : bool,
       Unit_CanAttackServerside w this unit ignoreFlagsSource ignoreFlagsTarget = false.
Proof.
  intros Hin Hflag.
  pose proof (attackMask_member _ _ Hin Hflag) as Hmask.
  unfold Unit_CanAttack, Unit_CanAttackServerside. rewrite Hmask.
  split; [|intros ? ?]; now destruct (ghostBlocked this unit).
Qed.

Lemma attack_blocked_by_target_flag_witness :
  Unit_CanAttack Demo.world Demo.footman DemoX.passenger = false
  /\ Unit_CanAttackServerside Demo.world Demo.footman DemoX.passenger true true = false.
Proof.
  assert (H := attack_blocked_by_target_flag Demo.world Demo.footman DemoX.passenger
                 UNIT_FLAG_TAXI_FLIGHT
                 (or_intror (or_intror (or_intror (or_introl eq_refl)))) eq_refl).
  split; [exact (proj1 H) | exact (proj2 H true true)].
Defined.

(** X13: with neither ignore switch set, CanAttackServerside is CanAttack;
    and setting an ignore switch never turns a permitted attack into a
    refused one. *)
Theorem CanAttackServerside_extends_CanAttack (w : World) (this unit : Unit) :
  Unit_CanAttackServerside w this unit false false = Unit_CanAttack w this unit
  /\ forall s t s' t' : bool,
       Unit_CanAttackServerside w this unit s t = true ->
       Unit_CanAttackServerside w this unit (s || s') (t || t') = true.
Proof.
  unfold Unit_CanAttackServerside, Unit_CanAttack. split.
  - destruct (ghostBlocked this unit); [reflexivity|].
    destruct (HasFlag (UNIT_FIELD_FLAGS unit) attackMask); [reflexivity|].
    simpl. reflexivity.
  - intros s t s' t'.
    destruct (ghostBlocked this unit); [discriminate|].
    destruct (HasFlag (UNIT_FIELD_FLAGS unit) attackMask); [discriminate|].
    destruct (immuneBlocked _ unit), (immuneBlocked _ this), s, t, s', t';
      simpl; congruence.
Qed.

Lemma CanAttackServerside_extends_CanAttack_witness :
  Unit_CanAttackServerside Demo.world Demo.footman Demo.grunt true true = true.
Proof.
  exact (proj2 (CanAttackServerside_extends_CanAttack Demo.world Demo.footman Demo.grunt)
           false false true true eq_refl).
Defined.

(** X14: CanAttackInCombat accepts whatever CanAttackServerside accepts,
    and against a target that is not player-controlled the two agree. *)
Theorem CanAttackInCombat_extends_serverside
    (w : World) (this target : Unit) (s t : bool) :
  (Unit_CanAttackServerside w this target s t = true ->
   Unit_CanAttackInCombat w this target s t = true)
  /\ (HasFlag (UNIT_FIELD_FLAGS target) UNIT_FLAG_PLAYER_CONTROLLED = false ->
      Unit_CanAttackInCombat w this target s t
      = Unit_CanAttackServerside w this target s t).
Proof.
  unfold Unit_CanAttackInCombat. split.
  - intros H. now rewrite H.
  - intros Hnpc. rewrite Hnpc.
    now destruct (Unit_CanAttackServerside w this target s t).
Qed.

Lemma CanAttackInCombat_extends_serverside_witness :
  Unit_CanAttackInCombat Demo.world Demo.footman Demo.grunt false false = true
  /\ Unit_CanAttackInCombat Demo.world Demo.footman Demo.peasant false false
     = Unit_CanAttackServerside Demo.world Demo.footman Demo.peasant false false.
Proof.
  split.
  - exact (proj1 (CanAttackInCombat_extends_serverside Demo.world Demo.footman
                    Demo.grunt false false) eq_refl).
  - exact (proj2 (CanAttackInCombat_extends_serverside Demo.world Demo.footman
                    Demo.peasant false false) eq_refl).
Defined.

(** X15: a permitted spell attack is always a permitted in-combat attack
    under the spell's ignore switch, and with a spell given the target is
    alive or the spell allows dead targets; without a spell the liveness
    of the target is not tested. *)
Theorem CanAttackSpell_implies_in_combat
    (w : World) (this target : Unit) (spellInfo : option SpellEntry) (isAOE : bool) :
  Unit_CanAttackSpell w this target spellInfo isAOE = true ->
  Unit_CanAttackInCombat w this target
    (spellIgnoresRestrictions spellInfo) (spellIgnoresRestrictions spellInfo) = true
  /\ (forall s : SpellEntry, spellInfo = Some s ->
        IsAlive target = true \/ SPELL_ATTR_EX2_ALLOW_DEAD_TARGET s = true).
Proof.
  unfold Unit_CanAttackSpell, spellIgnoresRestrictions. intros H. split.
  - destruct spellInfo as [s|].
    + destruct (negb (IsAlive target) && negb (SPELL_ATTR_EX2_ALLOW_DEAD_TARGET s));
        [discriminate|].
      now destruct (Unit_CanAttackInCombat w this target _ _).
    + now destruct (Unit_CanAttackInCombat w this target false false).
  - intros s ->.
    destruct (IsAlive target); [now left|].
    destruct (SPELL_ATTR_EX2_ALLOW_DEAD_TARGET s); [now right|].
    simpl in H. discriminate.
Qed.

Lemma CanAttackSpell_implies_in_combat_witness :
  Unit_CanAttackInCombat Demo.world Demo.footman Demo.grunt false false = true.
Proof.
  exact (proj1 (CanAttackSpell_implies_in_combat Demo.world Demo.footman Demo.grunt
                  None true eq_refl)).
Defined.

(** X16: a unit can assist itself exactly when it does not carry the
    uninteractible flag. *)
Theorem CanAssist_self (w : World) (u : Unit) :
  Unit_CanAssist w u u = negb (HasFlag (UNIT_FIELD_FLAGS u) UNIT_FLAG_UNINTERACTIBLE).
Proof.
  unfold Unit_CanAssist. rewrite GetReactionTo_self.
  destruct (HasFlag (UNIT_FIELD_FLAGS u) UNIT_FLAG_UNINTERACTIBLE); [reflexivity|].
  simpl.
  destruct (HasFlag (UNIT_FIELD_FLAGS u) UNIT_FLAG_PLAYER_CONTROLLED); [|reflexivity].
  destruct (GetControllingPlayer w u false) as [[pu p]|]; [|reflexivity].
  rewrite !Z.eqb_refl. simpl.
  now destruct (IsPvPFreeForAll pu).
Qed.

Lemma CanAssist_requires_friend (w : World) (a b : Unit) :
  Unit_CanAssist w a b = true -> Unit_IsFriend w a b = true.
Proof.
  unfold Unit_CanAssist, Unit_IsFriend, rank_ltb, rank_gtb.
  destruct (HasFlag (UNIT_FIELD_FLAGS b) UNIT_FLAG_UNINTERACTIBLE); [discriminate|].
  destruct (Unit_GetReactionTo w a b); cbn; intros H;
    first [reflexivity | discriminate H].
Qed.

(** X17: where at least one of two units is player-controlled, the first
    can never both assist and attack the second. *)
Theorem CanAssist_excludes_CanAttack (w : World) (a b : Unit) :
  HasFlag (UNIT_FIELD_FLAGS a) UNIT_FLAG_PLAYER_CONTROLLED = true
  \/ HasFlag (UNIT_FIELD_FLAGS b) UNIT_FLAG_PLAYER_CONTROLLED = true ->
  Unit_CanAssist w a b = true -> Unit_CanAttack w a b = false.
Proof.
  intros Hpc Hassist. apply CanAssist_requires_friend in Hassist.
  rewrite CanAttack_unfold.
  destruct (CanAttack_flagsBlock a b); [reflexivity|].
  unfold attackByRelation. rewrite Hassist.
  destruct (HasFlag (UNIT_FIELD_FLAGS a) UNIT_FLAG_PLAYER_CONTROLLED),
           (HasFlag (UNIT_FIELD_FLAGS b) UNIT_FLAG_PLAYER_CONTROLLED);
    try reflexivity.
  destruct Hpc; discriminate.
Qed.

Lemma CanAssist_excludes_CanAttack_witness :
  Unit_CanAssist Demo.world DemoX.bob DemoX.carol = true
  /\ Unit_CanAttack Demo.world DemoX.bob DemoX.carol = false.
Proof.
  split; [reflexivity|].
  exact (CanAssist_excludes_CanAttack Demo.world DemoX.bob DemoX.carol
           (or_introl eq_refl) eq_refl).
Defined.

(** X18: two units that can cooperate are distinct, neither is charmed,
    both have faction templates with the same group mask, and the first
    cannot attack the second. *)
Theorem CanCooperate_conditions (w : World) (this unit : Unit) :
  Unit_CanCooperate w this unit = true ->
  same_unit this unit = false
  /\ GetCharmerGuid this = 0 /\ GetCharmerGuid unit = 0
  /\ (exists t u : FactionTemplateEntry,
         GetFactionTemplateEntry w this = Some t
         /\ GetFactionTemplateEntry w unit = Some u
         /\ factionGroupMask t = factionGroupMask u)
  /\ Unit_CanAttack w this unit = false.
Proof.
  unfold Unit_CanCooperate. intros H.
  destruct (same_unit this unit); [discriminate|].
  destruct (nonzero (GetCharmerGuid this)) eqn:Hc1; [discriminate|].
  destruct (nonzero (GetCharmerGuid unit)) eqn:Hc2; [discriminate|].
  simpl in H.
  destruct (GetFactionTemplateEntry w this) as [t|]; [|discriminate].
  destruct (GetFactionTemplateEntry w unit) as [u|]; [|discriminate].
  destruct (factionGroupMask t =? factionGroupMask u) eqn:Hmask; [|discriminate].
  apply nonzero_false in Hc1, Hc2. apply Z.eqb_eq in Hmask.
  apply negb_true_iff in H.
  repeat split; try assumption. now exists t, u.
Qed.

Lemma CanCooperate_conditions_witness :
  Unit_CanCooperate Demo.world Demo.footman Demo.peasant = true
  /\ Unit_CanAttack Demo.world Demo.footman Demo.peasant = false.
Proof.
  split; [reflexivity|].
  apply (CanCooperate_conditions Demo.world Demo.footman Demo.peasant eq_refl).
Defined.

(** X19: each of the situational attack checks implies the generic one:
    CanAttackNow, CanAttackOnSight (which also implies IsEnemy) and
    CanJoinInAttacking imply CanAttack of the same target, and
    CanAssistInCombatAgainst implies CanAttack of the enemy, inside and
    outside instanced maps. *)
Theorem situational_attack_implies_CanAttack (s : Server) (this who enemy : Unit) :
  (Unit_CanAttackNow s this enemy = true -> Unit_CanAttack (server_world s) this enemy = true)
  /\ (Unit_CanAttackOnSight s this enemy = true ->
      Unit_CanAttack (server_world s) this enemy = true
      /\ Unit_IsEnemy (server_world s) this enemy = true)
  /\ (Unit_CanJoinInAttacking s this enemy = true ->
      Unit_CanAttack (server_world s) this enemy = true)
  /\ (Unit_CanAssistInCombatAgainst s this who enemy = true ->
      Unit_CanAttack (server_world s) this enemy = true).
Proof.
  assert (Hsight : Unit_CanAttackOnSight s this enemy = true ->
                   Unit_CanAttack (server_world s) this enemy = true
                   /\ Unit_IsEnemy (server_world s) this enemy = true).
  { unfold Unit_CanAttackOnSight. intros H.
    destruct (IsEvadingHome (aux s enemy)); [discriminate|].
    destruct (negb (IsIgnoringFeignDeath (aux s this))
              && IsFeigningDeathSuccessfully (aux s enemy)); [discriminate|].
    destruct (match class enemy with
              | AsCreature _ => IsPet (aux s enemy) && PET_MODE_DISABLE_ACTIONS (aux s enemy)
              | AsPlayer _ => false
              end); [discriminate|].
    now apply andb_true_iff in H. }
  assert (Hjoin : Unit_CanJoinInAttacking s this enemy = true ->
                  Unit_CanAttack (server_world s) this enemy = true).
  { unfold Unit_CanJoinInAttacking. intros H.
    destruct (negb (CanEnterCombat (aux s this))); [discriminate|].
    destruct (negb (CanInitiateAttack (aux s this))); [discriminate|].
    destruct (IsFeigningDeathSuccessfully (aux s this)); [discriminate|].
    destruct (HasAura_MOD_UNATTACKABLE (aux s this)); [discriminate|].
    now destruct (Unit_CanAttack (server_world s) this enemy). }
  repeat split; try (apply Hsight; assumption); try assumption.
  - unfold Unit_CanAttackNow. intros H.
    destruct (negb (IsAlive this)); [discriminate|].
    destruct (IsMounted (aux s this)); [discriminate|].
    now destruct (negb (IsAlive enemy)).
  - unfold Unit_CanAssistInCombatAgainst. intros H.
    destruct (MapInstanceable (aux s this)); [now apply Hjoin|].
    destruct (IsInCombat (aux s this)); [discriminate|].
    destruct (Unit_CanAssist (server_world s) this who); [|discriminate].
    destruct (Unit_CanAttackOnSight s this enemy) eqn:Hs; [|discriminate].
    now apply Hsight.
Qed.

Lemma situational_attack_implies_CanAttack_witness :
  Unit_CanAssistInCombatAgainst DemoX.server Demo.footman Demo.peasant Demo.grunt = true
  /\ Unit_CanAttack Demo.world Demo.footman Demo.grunt = true.
Proof.
  split; [reflexivity|].
  exact (proj2 (proj2 (proj2 (situational_attack_implies_CanAttack DemoX.server
           Demo.footman Demo.peasant Demo.grunt))) eq_refl).
Defined.

(* ===================================================================== *)
(** ** Further properties: group, guild and team                         *)
(* ===================================================================== *)

Lemma same_unit_sym (a b : Unit) : same_unit a b = same_unit b a.
Proof. apply Z.eqb_sym. Qed.

Lemma sameGroup_sym (p q : Player) (party : bool) :
  sameGroup p q party = sameGroup q p party.
Proof.
  unfold sameGroup.
  destruct (GetGroup p), (GetGroup q); try reflexivity.
  now rewrite (Z.eqb_sym z z0), (Z.eqb_sym (SubGroup p)).
Qed.

Lemma IsInGroup_self (w : World) (u : Unit) (party ignoreCharms : bool) :
  IsInGroup w u u party ignoreCharms = true.
Proof.
  unfold IsInGroup, Player_IsInGroup, Creature_IsInGroup, Unit_IsInGroup.
  destruct (class u).
  - rewrite same_unit_refl, IsFriend_self. now destruct (_ || _).
  - now rewrite same_unit_refl.
Qed.

(** X20: the group, guild and team tests of [Unit] hold of every unit with
    itself and give the same answer in both directions. *)
Theorem affinity_reflexive_symmetric (w : World) (a b : Unit) (party ignoreCharms : bool) :
  (Unit_IsInGroup w a a party ignoreCharms = true
   /\ Unit_IsInGuild w a a ignoreCharms = true
   /\ Unit_IsInTeam w a a ignoreCharms = true)
  /\ Unit_IsInGroup w a b party ignoreCharms = Unit_IsInGroup w b a party ignoreCharms
  /\ Unit_IsInGuild w a b ignoreCharms = Unit_IsInGuild w b a ignoreCharms
  /\ Unit_IsInTeam w a b ignoreCharms = Unit_IsInTeam w b a ignoreCharms.
Proof.
  split.
  - unfold Unit_IsInGroup, Unit_IsInGuild, Unit_IsInTeam.
    now rewrite same_unit_refl.
  - unfold Unit_IsInGroup, Unit_IsInGuild, Unit_IsInTeam.
    rewrite (same_unit_sym b a).
    rewrite (andb_comm (HasFlag (UNIT_FIELD_FLAGS b) UNIT_FLAG_PLAYER_CONTROLLED)).
    destruct (same_unit a b); [repeat split|].
    destruct (_ && _); [|repeat split].
    destruct (GetControllingPlayer w a ignoreCharms) as [[ua pa]|],
             (GetControllingPlayer w b ignoreCharms) as [[ub pb]|];
      try (repeat split; reflexivity).
    rewrite (same_unit_sym ub ua), (sameGroup_sym pb pa),
      (Z.eqb_sym (GetGuildId pb)), (Z.eqb_sym (GetTeam pb)).
    repeat split.
Qed.

(** X21: units that count as grouped with the sub-group requirement also
    count as grouped without it, for players and for creatures. *)
Theorem IsInGroup_party_implies_raid (w : World) (a b : Unit) (ignoreCharms : bool) :
  IsInGroup w a b true ignoreCharms = true ->
  IsInGroup w a b false ignoreCharms = true.
Proof.
  assert (Hsg : forall p q, sameGroup p q true = true -> sameGroup p q false = true).
  { intros p q. unfold sameGroup.
    destruct (GetGroup p), (GetGroup q); try discriminate.
    simpl. rewrite !andb_true_iff. intros [H _]. now rewrite H. }
  assert (Hu : Unit_IsInGroup w a b true ignoreCharms = true ->
               Unit_IsInGroup w a b false ignoreCharms = true).
  { unfold Unit_IsInGroup.
    destruct (same_unit a b); [reflexivity|].
    destruct (_ && _); [|discriminate].
    destruct (GetControllingPlayer w a ignoreCharms) as [[ua pa]|]; [|discriminate].
    destruct (GetControllingPlayer w b ignoreCharms) as [[ub pb]|]; [|discriminate].
    rewrite !orb_true_iff. intros [H | H]; [now left | right; now apply Hsg]. }
  unfold IsInGroup, Player_IsInGroup, Creature_IsInGroup.
  destruct (class a).
  - now destruct (_ || _).
  - destruct (negb (same_unit a b) && ignoreCharms); [|exact Hu].
    destruct (toPlayer b) as [[? ?]|]; [apply Hsg | exact Hu].
Qed.

Lemma IsInGroup_party_implies_raid_witness :
  IsInGroup Demo.world DemoX.bob DemoX.carol false true = true.
Proof.
  exact (IsInGroup_party_implies_raid Demo.world DemoX.bob DemoX.carol true eq_refl).
Defined.

(* ===================================================================== *)
(** ** Further properties: fog of war                                    *)
(* ===================================================================== *)

(** X22: a unit always passes the health and the stats gate for itself; it
    passes the stealth gate for itself unless the stealth mode is 1
    (cooperation) and it is no game master, because no unit cooperates
    with itself. *)
Theorem fog_of_war_self (w : World) (u : Unit) :
  Unit_IsFogOfWarVisibleHealth w u u = true
  /\ Unit_IsFogOfWarVisibleStats w u u = true
  /\ Unit_IsFogOfWarVisibleStealth w u u
     = isGameMasterPlayer u || negb (CONFIG_UINT32_FOGOFWAR_STEALTH w =? 1).
Proof.
  unfold Unit_IsFogOfWarVisibleHealth, Unit_IsFogOfWarVisibleStats,
    Unit_IsFogOfWarVisibleStealth.
  rewrite !IsInGroup_self.
  unfold Unit_IsInTeam, Unit_CanCooperate. rewrite same_unit_refl.
  destruct (isGameMasterPlayer u); [repeat split|]. simpl.
  destruct (CONFIG_UINT32_FOGOFWAR_HEALTH w =? 1),
           (CONFIG_UINT32_FOGOFWAR_HEALTH w =? 2),
           (CONFIG_UINT32_FOGOFWAR_STATS w =? 1),
           (CONFIG_UINT32_FOGOFWAR_STATS w =? 2),
           (CONFIG_UINT32_FOGOFWAR_STEALTH w =? 1); repeat split.
Qed.

(* ===================================================================== *)
(** ** Further properties: objects, corpses, interaction                 *)
(* ===================================================================== *)

(** X23: a game object without owner and without a known faction template
    can target with a harmful spell, and likewise with a helpful spell,
    exactly the player-controlled units. *)
Theorem GameObject_bare_spell_targets
    (w : World) (go : GameObject) (target : Unit)
    (spellInfo : option SpellEntry) (isAOE : bool) :
  GetOwner w go = None -> GO_factionTemplate w go = None ->
  GameObject_CanAttackSpell w go target spellInfo isAOE
  = HasFlag (UNIT_FIELD_FLAGS target) UNIT_FLAG_PLAYER_CONTROLLED
  /\ GameObject_CanAssistSpell w go target spellInfo
     = HasFlag (UNIT_FIELD_FLAGS target) UNIT_FLAG_PLAYER_CONTROLLED.
Proof.
  intros Howner Hfaction.
  unfold GameObject_CanAttackSpell, GameObject_CanAssistSpell,
    GameObject_IsFriend, GameObject_IsEnemy.
  rewrite Howner, Hfaction.
  now destruct (HasFlag (UNIT_FIELD_FLAGS target) UNIT_FLAG_PLAYER_CONTROLLED).
Qed.

Lemma GameObject_bare_spell_targets_witness :
  GameObject_CanAttackSpell Demo.world DemoX.trap Demo.alice None false = true
  /\ GameObject_CanAttackSpell Demo.world DemoX.trap Demo.grunt None false = false.
Proof.
  split.
  - exact (proj1 (GameObject_bare_spell_targets Demo.world DemoX.trap Demo.alice
                    None false eq_refl eq_refl)).
  - exact (proj1 (GameObject_bare_spell_targets Demo.world DemoX.trap Demo.grunt
                    None false eq_refl eq_refl)).
Defined.

(** X24: the reaction of a unit to a corpse is REP_NEUTRAL when the unit has
    no faction template or the corpse's faction id is 0 or unknown; and a
    creature can assist a corpse exactly when that reaction is
    REP_FRIENDLY. *)
Theorem corpse_reaction (s : Server) (this : Unit) (corpse : Corpse) :
  (GetFactionTemplateEntry (server_world s) this = None
   \/ Corpse_GetFaction corpse = 0
   \/ sFactionTemplateStore (server_world s) !! Corpse_GetFaction corpse = None ->
   Unit_GetReactionTo_corpse (server_world s) this corpse = REP_NEUTRAL)
  /\ (forall c : Creature, class this = AsCreature c ->
      (Unit_CanAssist_corpse s this corpse = Some true
       <-> Unit_GetReactionTo_corpse (server_world s) this corpse = REP_FRIENDLY)).
Proof.
  split.
  - unfold Unit_GetReactionTo_corpse. intros [H | [H | H]].
    + now rewrite H.
    + rewrite H. now destruct (GetFactionTemplateEntry _ this).
    + rewrite H. destruct (GetFactionTemplateEntry _ this); [|reflexivity].
      now destruct (nonzero _).
  - intros c Hc. unfold Unit_CanAssist_corpse, GetReactionTo_corpse. rewrite Hc.
    assert (Hcases : Unit_GetReactionTo_corpse (server_world s) this corpse = REP_HOSTILE
                     \/ Unit_GetReactionTo_corpse (server_world s) this corpse = REP_NEUTRAL
                     \/ Unit_GetReactionTo_corpse (server_world s) this corpse = REP_FRIENDLY).
    { unfold Unit_GetReactionTo_corpse.
      destruct (GetFactionTemplateEntry _ this); [|tauto].
      destruct (nonzero _); [|tauto].
      destruct (_ !! _); [apply templates_reaction_cases | tauto]. }
    destruct Hcases as [H | [H | H]]; rewrite H; split; intros H';
      try reflexivity; discriminate H'.
Qed.

Lemma corpse_reaction_witness :
  Unit_GetReactionTo_corpse Demo.world Demo.footman DemoX.namelessCorpse = REP_NEUTRAL
  /\ Unit_CanAssist_corpse DemoX.server Demo.footman DemoX.friendlyCorpse = Some true.
Proof.
  split.
  - apply (proj1 (corpse_reaction DemoX.server Demo.footman DemoX.namelessCorpse)).
    right; left. reflexivity.
  - apply (proj2 (corpse_reaction DemoX.server Demo.footman DemoX.friendlyCorpse)
             _ eq_refl).
    reflexivity.
Defined.

(** X25: the reaction of a player to a corpse is the generic reaction of a
    unit to that corpse whenever crossfaction grouping is switched off, or
    the owner of the corpse is not found, or is the player itself, or is
    of the player's team. *)
Theorem Player_corpse_reaction_generic
    (s : Server) (u : Unit) (p : Player) (corpse : Corpse) :
  CONFIG_BOOL_ALLOW_TWO_SIDE_INTERACTION_GROUP s = false
  \/ GetPlayer (server_world s) (Corpse_GetOwnerGuid corpse) = None
  \/ (exists (ownerU : Unit) (ownerP : Player),
         GetPlayer (server_world s) (Corpse_GetOwnerGuid corpse) = Some (ownerU, ownerP)
         /\ (same_unit u ownerU = true \/ GetTeam p = GetTeam ownerP)) ->
  Player_GetReactionTo_corpse s (u, p) corpse
  = Some (Unit_GetReactionTo_corpse (server_world s) u corpse).
Proof.
  unfold Player_GetReactionTo_corpse. intros [H | [H | [ou [op [H [Hs | Ht]]]]]].
  - rewrite H.
    destruct (GetPlayer _ _) as [[ou op]|]; [|reflexivity].
    now destruct (negb (same_unit u ou)), (negb (GetTeam p =? GetTeam op)).
  - now rewrite H.
  - now rewrite H, Hs.
  - rewrite H. apply Z.eqb_eq in Ht. rewrite Ht.
    now destruct (negb (same_unit u ou)).
Qed.

Lemma Player_corpse_reaction_generic_witness :
  exists p : Player,
    class DemoX.bob = AsPlayer p
    /\ Player_GetReactionTo_corpse DemoX.server (DemoX.bob, p) DemoX.friendlyCorpse
       = Some REP_FRIENDLY.
Proof.
  eexists. split; [reflexivity|].
  exact (Player_corpse_reaction_generic DemoX.server DemoX.bob _ DemoX.friendlyCorpse
           (or_introl eq_refl)).
Defined.

(** X26: the ghost of a player can interact with no game object; every
    other unit can interact with a game object that has neither an owner
    nor a known faction template. *)
Theorem CanInteract_object_cases (w : World) (this : Unit) (object : GameObject) :
  (isGhostPlayer this = true -> Unit_CanInteract_object w this object = false)
  /\ (isGhostPlayer this = false ->
      GetOwner w object = None -> GO_factionTemplate w object = None ->
      Unit_CanInteract_object w this object = true).
Proof.
  unfold Unit_CanInteract_object, GameObject_GetReactionTo. split.
  - intros H. now rewrite H.
  - intros H Howner Hfaction. now rewrite H, Howner, Hfaction.
Qed.

Lemma CanInteract_object_cases_witness :
  Unit_CanInteract_object Demo.world DemoX.ghost DemoX.trap = false
  /\ Unit_CanInteract_object Demo.world Demo.grunt DemoX.trap = true.
Proof.
  split.
  - exact (proj1 (CanInteract_object_cases Demo.world DemoX.ghost DemoX.trap) eq_refl).
  - exact (proj2 (CanInteract_object_cases Demo.world Demo.grunt DemoX.trap)
             eq_refl eq_refl eq_refl).
Defined.

(** X27: a permitted immediate interaction is a permitted interaction, the
    caller is not on a taxi, neither side is charmed, the target has no
    victim, and neither side sees the other as an enemy. *)
Theorem CanInteractNow_implies (s : Server) (this unit : Unit) :
  Unit_CanInteractNow s this unit = Some true ->
  Unit_CanInteract s this unit = true
  /\ HasFlag (UNIT_FIELD_FLAGS this) UNIT_FLAG_TAXI_FLIGHT = false
  /\ GetCharmerGuid this = 0 /\ GetCharmerGuid unit = 0
  /\ HasVictim (aux s unit) = false
  /\ Unit_IsEnemy (server_world s) this unit = false
  /\ Unit_IsEnemy (server_world s) unit this = false.
Proof.
  unfold Unit_CanInteractNow. intros H.
  destruct (HasFlag (UNIT_FIELD_FLAGS this) UNIT_FLAG_TAXI_FLIGHT); [discriminate|].
  destruct (nonzero (GetCharmerGuid this)) eqn:Hc1; [discriminate|].
  destruct (negb (IsAlive this) && negb (isGhostPlayer this)); [discriminate|].
  destruct (shapeshiftBlocks s this); [discriminate|].
  destruct (deadUnitBlocks s this unit) as [[|]|]; try discriminate.
  destruct (nonzero (GetCharmerGuid unit)) eqn:Hc2; [discriminate|].
  destruct (HasFlag (UNIT_FIELD_FLAGS unit) UNIT_FLAG_PET_IN_COMBAT); [discriminate|].
  destruct (HasVictim (aux s unit)); [discriminate|].
  simpl in H. injection H as H.
  apply nonzero_false in Hc1, Hc2.
  repeat split; try assumption.
  - unfold Unit_CanInteract in H.
    destruct (HasFlag (UNIT_FIELD_FLAGS unit) UNIT_FLAG_UNINTERACTIBLE); [discriminate|].
    destruct (negb (nonzero (UNIT_NPC_FLAGS (aux s unit)))); [discriminate|].
    destruct (isGhostPlayer this && notGhostVisibleCreature unit); [discriminate|].
    apply andb_true_iff in H as [H _].
    unfold Unit_IsEnemy, rank_ltb. unfold rank_gtb in H.
    destruct (Unit_GetReactionTo (server_world s) this unit);
      first [reflexivity | discriminate H].
  - unfold Unit_CanInteract in H.
    destruct (HasFlag (UNIT_FIELD_FLAGS unit) UNIT_FLAG_UNINTERACTIBLE); [discriminate|].
    destruct (negb (nonzero (UNIT_NPC_FLAGS (aux s unit)))); [discriminate|].
    destruct (isGhostPlayer this && notGhostVisibleCreature unit); [discriminate|].
    apply andb_true_iff in H as [_ H].
    unfold Unit_IsEnemy, rank_ltb. unfold rank_gtb in H.
    destruct (Unit_GetReactionTo (server_world s) unit this);
      first [reflexivity | discriminate H].
Qed.

Lemma CanInteractNow_implies_witness :
  Unit_CanInteractNow DemoX.server Demo.alice Demo.townGuard = Some true
  /\ Unit_CanInteract DemoX.server Demo.alice Demo.townGuard = true.
Proof.
  split; [reflexivity|].
  exact (proj1 (CanInteractNow_implies DemoX.server Demo.alice Demo.townGuard eq_refl)).
Defined.
